(** * GLM-Image web UI: the request-to-inference layer of [glm_image_ui.py]

    A shallow embedding of the orchestration code of [glm_image_ui.py]
    (the two generation functions, the result encoder and the two API
    endpoints) together with the properties its specification states.

    Python values are modelled as follows.
    - [int] is [Z] (unbounded), [float] is a binary64 primitive float.
    - [str] is a list of Unicode code points; [bytes] is a list of bytes.
    - An exception is a value of [PyExc]; a statement block is a computation
      in the monad [M], which threads the process state ([World]) and stops
      at the first raised exception.
    - The libraries the program calls (the diffusers pipeline, PIL, the
      HTTP framework) are not part of the program: they are parameters of
      the final section. *)

From Stdlib Require Import ZArith NArith List String Ascii Bool Lia.
From Stdlib Require Import Init.Byte DecimalString.
From Stdlib Require Import Floats.PrimFloat.
Import ListNotations.

Set Implicit Arguments.

(* ------------------------------------------------------------------ *)
(** ** Python strings *)

Module PyStr.

(** A Python [str]: the sequence of its code points. *)
Definition str : Type := list N.

(** A literal of the source text. *)
Definition lit (s : string) : str :=
  List.map N_of_ascii (list_ascii_of_string s).

(** [c.isspace()] for a single character, as CPython's
    [_PyUnicode_IsWhitespace] lists them. *)
Definition isspace (c : N) : bool :=
  (((9 <=? c) && (c <=? 13)) || ((28 <=? c) && (c <=? 32))
   || (c =? 133) || (c =? 160) || (c =? 5760)
   || ((8192 <=? c) && (c <=? 8202))
   || (c =? 8232) || (c =? 8233) || (c =? 8239) || (c =? 8287)
   || (c =? 12288))%N.

(** [s.lstrip()]. *)
Fixpoint lstrip (s : str) : str :=
  match s with
  | [] => []
  | c :: s' => if isspace c then lstrip s' else s
  end.

(** [s.rstrip()]. *)
Definition rstrip (s : str) : str := rev (lstrip (rev s)).

(** [s.strip()]: leading and trailing whitespace removed. *)
Definition strip (s : str) : str := rstrip (lstrip s).

(** Truth value of a string: a string is false exactly when empty. *)
Definition truthy (s : str) : bool :=
  match s with [] => false | _ :: _ => true end.

(** The strings validation refuses: empty, or whitespace only. *)
Definition blank (s : str) : bool := forallb isspace s.

(** [str(n)] for an integer [n]. *)
Definition of_Z (n : Z) : str :=
  lit (NilZero.string_of_int (Z.to_int n)).

End PyStr.

Import PyStr.

(** Python [bytes]. *)
Definition bytes : Type := list byte.

(* ------------------------------------------------------------------ *)
(** ** Base64 ([base64.b64encode]) *)

Module Base64.

Definition alphabet : string :=
  "ABCDEFGHIJKLMNOPQRSTUVWXYZabcdefghijklmnopqrstuvwxyz0123456789+/".

Definition pad : byte := byte_of_ascii "="%char.

(** The character of the six-bit value [i]. *)
Definition char (i : N) : byte :=
  match String.get (N.to_nat i) alphabet with
  | Some a => byte_of_ascii a
  | None => pad
  end.

(** The four characters of a full group of three bytes. *)
Definition group3 (a b c : byte) : list byte :=
  let n := (N.shiftl (Byte.to_N a) 16 + N.shiftl (Byte.to_N b) 8 + Byte.to_N c)%N in
  [ char (N.land (N.shiftr n 18) 63); char (N.land (N.shiftr n 12) 63);
    char (N.land (N.shiftr n 6) 63);  char (N.land n 63) ].

Fixpoint b64encode (bs : bytes) : bytes :=
  match bs with
  | [] => []
  | [a] =>
      let n := N.shiftl (Byte.to_N a) 16 in
      [ char (N.land (N.shiftr n 18) 63); char (N.land (N.shiftr n 12) 63);
        pad; pad ]
  | [a; b] =>
      let n := (N.shiftl (Byte.to_N a) 16 + N.shiftl (Byte.to_N b) 8)%N in
      [ char (N.land (N.shiftr n 18) 63); char (N.land (N.shiftr n 12) 63);
        char (N.land (N.shiftr n 6) 63); pad ]
  | a :: b :: c :: rest => group3 a b c ++ b64encode rest
  end.

(** The position of a character in a text, counted from [i]. *)
Fixpoint index_from (s : string) (a : Ascii.ascii) (i : N) : option N :=
  match s with
  | EmptyString => None
  | String c s' => if Ascii.eqb c a then Some i else index_from s' a (i + 1)
  end.

(** The six-bit value of a character of the alphabet. *)
Definition index (c : byte) : option N :=
  index_from alphabet (ascii_of_byte c) 0.

(** The 24-bit value of four six-bit values. *)
Definition quad (s1 s2 s3 s4 : option N) : option N :=
  match s1, s2, s3, s4 with
  | Some v1, Some v2, Some v3, Some v4 =>
      Some (N.shiftl v1 18 + N.shiftl v2 12 + N.shiftl v3 6 + v4)%N
  | _, _, _, _ => None
  end.

(** The first [k] of the three bytes of a 24-bit value. *)
Definition octets (k : nat) (n : N) : option bytes :=
  match Byte.of_N (N.land (N.shiftr n 16) 255),
        Byte.of_N (N.land (N.shiftr n 8) 255),
        Byte.of_N (N.land n 255) with
  | Some a, Some b, Some c => Some (firstn k [a; b; c])
  | _, _, _ => None
  end.

(** What a client does with the payload of the data URI
    ([base64.b64decode] with validation): groups of four characters of the
    alphabet, the last one padded with one or two [=]. *)
Fixpoint b64decode (cs : bytes) : option bytes :=
  match cs with
  | [] => Some []
  | c1 :: c2 :: c3 :: c4 :: rest =>
      match rest with
      | [] =>
          if Byte.eqb c4 pad then
            if Byte.eqb c3 pad then
              match quad (index c1) (index c2) (Some 0%N) (Some 0%N) with
              | Some n => octets 1 n
              | None => None
              end
            else
              match quad (index c1) (index c2) (index c3) (Some 0%N) with
              | Some n => octets 2 n
              | None => None
              end
          else
            match quad (index c1) (index c2) (index c3) (index c4) with
            | Some n => octets 3 n
            | None => None
            end
      | _ :: _ =>
          match quad (index c1) (index c2) (index c3) (index c4),
                b64decode rest with
          | Some n, Some tail =>
              match octets 3 n with
              | Some head => Some (head ++ tail)
              | None => None
              end
          | _, _ => None
          end
      end
  | _ => None
  end.

End Base64.

(** [b.decode()] on the output of [b64encode], which is ASCII: every byte
    is the code point of its character. *)
Definition decode (b : bytes) : str := List.map Byte.to_N b.

(** [s.encode("latin-1")]: the byte of each character, or nothing when a
    character has none (a code point above 255). *)
Fixpoint encode (s : str) : option bytes :=
  match s with
  | [] => Some []
  | c :: s' =>
      match Byte.of_N c, encode s' with
      | Some b, Some bs => Some (b :: bs)
      | _, _ => None
      end
  end.


(* ------------------------------------------------------------------ *)
(** ** Exceptions *)

(** The exceptions the program can see. All of them derive from Python's
    [Exception], so an [except Exception] clause catches each one.
    [HTTPException] is the framework's exception and carries the status
    code and the detail of the error response it stands for.
    [LibraryError cls msg] is an exception of class [cls] raised inside a
    library (the pipeline, PIL, torch). *)
Inductive PyExc : Type :=
| ValueError (msg : str)
| TypeError (msg : str)
| IndexError (msg : str)
| HTTPException (status_code : Z) (detail : str)
| LibraryError (cls : str) (msg : str).

(** The result of evaluating an expression: an exception or a value. *)
Definition Result (A : Type) : Type := (PyExc + A)%type.

(** [isinstance(e, HTTPException)]. *)
Definition is_HTTPException (e : PyExc) : bool :=
  match e with HTTPException _ _ => true | _ => false end.

(* ------------------------------------------------------------------ *)
(** ** The call contract of the pipeline *)

Section PipelineTypes.

Variables Image Generator : Type.

(** The keyword arguments of one call of the pipeline. [kw_image] and
    [kw_generator] are [None] when the argument is not passed or is
    Python's [None]. *)
Record PipeArgs : Type := {
  kw_prompt : str;
  kw_image : option (list Image);
  kw_height : Z;
  kw_width : Z;
  kw_num_inference_steps : Z;
  kw_guidance_scale : float;
  kw_generator : option Generator
}.

(** The object a pipeline call returns; the program reads [.images]. *)
Record PipeOutput : Type := { images : list Image }.

(** What calling a loaded pipeline does: it may raise, and it may read
    and advance the process-wide random source (the [N]). *)
Definition PipeCall : Type := PipeArgs -> N -> Result PipeOutput * N.

End PipelineTypes.

(* ------------------------------------------------------------------ *)
(** ** The libraries the program is written against *)

(** What the program imports and does not define: PIL images, torch
    generators, the pretrained pipeline and the framework's rendering of
    its own exception. *)
Class Libs : Type := {
  (** [PIL.Image.Image] *)
  Image : Type;
  (** [torch.Generator] *)
  Generator : Type;
  (** [torch.Generator(device=d)] *)
  torch_Generator : str -> Result Generator;
  (** [g.manual_seed(seed)], which returns the generator *)
  manual_seed : Generator -> Z -> Result Generator;
  (** [Image.open(io.BytesIO(contents))] *)
  Image_open : bytes -> Result Image;
  (** [img.convert(mode)] *)
  Image_convert : Image -> str -> Result Image;
  (** [img.save(buffered, format=fmt)] followed by [buffered.getvalue()] *)
  Image_save : Image -> str -> Result bytes;
  (** [GlmImagePipeline.from_pretrained(name, device_map=d)] *)
  from_pretrained : str -> str -> Result (PipeCall Image Generator);
  (** [str(e)] for an [HTTPException] with the given status and detail *)
  HTTPException_str : Z -> str -> str
}.

Section Model.

Context {L : Libs}.

Local Abbreviation PipeArgs := (PipeArgs Image Generator).
Local Abbreviation PipeOutput := (PipeOutput Image).

(** A loaded [GlmImagePipeline]. [pipe_call] is what calling it does: it
    may raise, and it may read and advance the process-wide random source
    (the [N]). [pipe_device_map] remembers the [device_map] the pipeline
    was loaded with. *)
Record Pipeline : Type := {
  pipe_device_map : str;
  pipe_call : PipeCall Image Generator
}.

(** The state of the process: the global [pipe], torch's default random
    source, what was printed, and the history of pipeline calls. *)
Record World : Type := {
  pipe : option Pipeline;
  rng : N;
  stdout : list str;
  calls : list PipeArgs
}.

(** A block of statements. *)
Definition M (A : Type) : Type := World -> Result A * World.

Definition ret {A} (a : A) : M A := fun w => (inr a, w).

Definition bind {A B} (m : M A) (k : A -> M B) : M B :=
  fun w =>
    match m w with
    | (inl e, w') => (inl e, w')
    | (inr a, w') => k a w'
    end.

(** [raise e] *)
Definition raise {A} (e : PyExc) : M A := fun w => (inl e, w).

(** An expression that may raise and does not touch the state. *)
Definition lift {A} (r : Result A) : M A := fun w => (r, w).

(** [try: body  except Exception as e: handler(e)] *)
Definition try_except {A} (body : M A) (handler : PyExc -> M A) : M A :=
  fun w =>
    match body w with
    | (inl e, w') => handler e w'
    | (inr a, w') => (inr a, w')
    end.

(** Reading the global [pipe]. *)
Definition get_pipe : M (option Pipeline) := fun w => (inr (pipe w), w).

(** [pipe = p] under [global pipe]. *)
Definition set_pipe (p : Pipeline) : M unit :=
  fun w => (inr tt, {| pipe := Some p; rng := rng w;
                       stdout := stdout w; calls := calls w |}).

(** [print(s)] *)
Definition print (s : str) : M unit :=
  fun w => (inr tt, {| pipe := pipe w; rng := rng w;
                       stdout := stdout w ++ [s]; calls := calls w |}).

(** [p(prompt=..., ...)] where [p] is the value of the global [pipe]: calling
    [None] is a [TypeError]; calling a pipeline records the call. *)
Definition call (p : option Pipeline) (args : PipeArgs) : M PipeOutput :=
  match p with
  | None => raise (TypeError (lit "'NoneType' object is not callable"))
  | Some f =>
      fun w =>
        let '(r, rng') := pipe_call f args (rng w) in
        (r, {| pipe := pipe w; rng := rng';
               stdout := stdout w; calls := calls w ++ [args] |})
  end.

(** [l[0]] *)
Definition index0 {A} (l : list A) : M A :=
  match l with
  | [] => raise (IndexError (lit "list index out of range"))
  | a :: _ => ret a
  end.

(** [str(e)] *)
Definition str_exc (e : PyExc) : str :=
  match e with
  | ValueError msg | TypeError msg | IndexError msg => msg
  | HTTPException status_code detail => HTTPException_str status_code detail
  | LibraryError _ msg => msg
  end.

End Model.

Declare Scope py_scope.
Delimit Scope py_scope with py.
Notation "x <- c ;; k" := (bind c (fun x => k))
  (at level 100, c at next level, right associativity) : py_scope.
Notation "c ;; k" := (bind c (fun _ => k))
  (at level 100, right associativity) : py_scope.
Open Scope py_scope.

(* ------------------------------------------------------------------ *)
(** ** The program *)

Section Program.

Context {L : Libs}.

Local Abbreviation PipeArgs := (PipeArgs Image Generator).

(** [load_model]: loads the pipeline on the CUDA device and stores it in
    the global [pipe]. *)
Definition load_model : M Pipeline :=
  print (lit "Loading GLM-Image model...");;
  f <- lift (from_pretrained (lit "zai-org/GLM-Image") (lit "cuda"));;
  let p := {| pipe_device_map := lit "cuda"; pipe_call := f |} in
  set_pipe p;;
  print (lit "Model loaded successfully!");;
  ret p.

(** The request body of the text-to-image endpoint as the client sent it:
    every field but [prompt] may be left out. *)
Record TextToImageBody : Type := {
  body_prompt : str;
  body_height : option Z;
  body_width : option Z;
  body_num_inference_steps : option Z;
  body_guidance_scale : option float;
  body_seed : option Z
}.

(** [class TextToImageRequest(BaseModel)] *)
Record TextToImageRequest : Type := {
  prompt : str;
  height : Z;
  width : Z;
  num_inference_steps : Z;
  guidance_scale : float;
  seed : Z
}.

(** A field with a declared default: the value sent, or the default. *)
Definition field {A} (default : A) (sent : option A) : A :=
  match sent with Some v => v | None => default end.

(** Building a [TextToImageRequest] from a body, with the defaults the
    class declares. *)
Definition TextToImageRequest_of_body (b : TextToImageBody)
  : TextToImageRequest :=
  {| prompt := body_prompt b;
     height := field (32 * 32)%Z (body_height b);
     width := field (36 * 32)%Z (body_width b);
     num_inference_steps := field 50%Z (body_num_inference_steps b);
     guidance_scale := field 1.5%float (body_guidance_scale b);
     seed := field 42%Z (body_seed b) |}.

(** [torch.Generator(device="cuda").manual_seed(seed) if seed >= 0 else None] *)
Definition make_generator (seed : Z) : M (option Generator) :=
  if (seed >=? 0)%Z then
    g0 <- lift (torch_Generator (lit "cuda"));;
    g <- lift (manual_seed g0 seed);;
    ret (Some g)
  else ret None.

(** The handler both generation functions end with:
    [except Exception as e: ...]. *)
Definition generation_handler {A} (e : PyExc) : M A :=
  let error_msg := lit "Error generating image: " ++ str_exc e in
  print error_msg;;
  raise (HTTPException 500 error_msg).

Definition not_loaded_detail : str :=
  lit "Model is not loaded yet. Please wait for the model to finish loading.".

(** [text_to_image(prompt, height, width, num_inference_steps,
    guidance_scale, seed)]. The signature repeats the defaults of
    [TextToImageRequest]; the one caller in the program passes all six
    arguments. *)
Definition text_to_image (prompt : str) (height width num_inference_steps : Z)
    (guidance_scale : float) (seed : Z) : M Image :=
  try_except
    ((if negb (truthy prompt) || negb (truthy (strip prompt))
      then raise (ValueError (lit "Please enter a prompt")) else ret tt);;
     p <- get_pipe;;
     (match p with
      | None => raise (HTTPException 503 not_loaded_detail)
      | Some _ => ret tt
      end);;
     generator <- make_generator seed;;
     print (lit "Generating image with prompt: " ++ prompt);;
     p <- get_pipe;;
     result <- call p {| kw_prompt := prompt;
                         kw_image := None;
                         kw_height := height;
                         kw_width := width;
                         kw_num_inference_steps := num_inference_steps;
                         kw_guidance_scale := guidance_scale;
                         kw_generator := generator |};;
     image <- index0 (images result);;
     ret image)
    generation_handler.

(** [images is None or len(images) == 0] *)
Definition none_or_empty {A} (images : option (list A)) : bool :=
  match images with
  | None => true
  | Some l => (List.length l =? 0)%nat
  end.

(** [len(images)] once [images] is known to be a list. *)
Definition len {A} (images : option (list A)) : M nat :=
  match images with
  | None => raise (TypeError (lit "object of type 'NoneType' has no len()"))
  | Some l => ret (List.length l)
  end.

(** [image_to_image(images, prompt, height, width, num_inference_steps,
    guidance_scale, seed)]. The signature has the defaults [33 * 32],
    [32 * 32], [50], [1.5], [42]; the one caller in the program passes all
    seven arguments. *)
Definition image_to_image (images_ : option (list Image)) (prompt : str)
    (height width num_inference_steps : Z) (guidance_scale : float)
    (seed : Z) : M Image :=
  try_except
    ((if none_or_empty images_
      then raise (ValueError (lit "Please upload at least one image"))
      else ret tt);;
     (if negb (truthy prompt) || negb (truthy (strip prompt))
      then raise (ValueError (lit "Please enter a prompt")) else ret tt);;
     p <- get_pipe;;
     (match p with
      | None => raise (HTTPException 503 not_loaded_detail)
      | Some _ => ret tt
      end);;
     generator <- make_generator seed;;
     n <- len images_;;
     print (lit "Generating image with prompt: " ++ prompt ++ lit " and "
            ++ of_Z (Z.of_nat n) ++ lit " input image(s)");;
     p <- get_pipe;;
     result <- call p {| kw_prompt := prompt;
                         kw_image := images_;
                         kw_height := height;
                         kw_width := width;
                         kw_num_inference_steps := num_inference_steps;
                         kw_guidance_scale := guidance_scale;
                         kw_generator := generator |};;
     image <- index0 (images result);;
     ret image)
    generation_handler.

(** The prefix of the data URI. *)
Definition data_uri_prefix : str := lit "data:image/png;base64,".

(** [image_to_base64(image)] *)
Definition image_to_base64 (image : Image) : M str :=
  buffered <- lift (Image_save image (lit "PNG"));;
  let img_str := decode (Base64.b64encode buffered) in
  ret (data_uri_prefix ++ img_str).

(** [JSONResponse(content={...})]: the keys and values of [content], in
    the order the dictionary was written. *)
Record JSONResponse : Type := { content : list (str * str) }.

(** The two handlers both endpoints end with:
    [except HTTPException: raise] and
    [except Exception as e: raise HTTPException(status_code=500, detail=str(e))]. *)
Definition api_handler {A} (e : PyExc) : M A :=
  if is_HTTPException e then raise e
  else raise (HTTPException 500 (str_exc e)).

(** [api_text_to_image(request)], the endpoint [POST /api/text-to-image]. *)
Definition api_text_to_image (request : TextToImageRequest) : M JSONResponse :=
  try_except
    (image <- text_to_image (prompt request) (height request) (width request)
                (num_inference_steps request) (guidance_scale request)
                (seed request);;
     image_base64 <- image_to_base64 image;;
     ret {| content := [ (lit "image", image_base64);
                         (lit "status", lit "success") ] |})
    api_handler.

(** An uploaded file: [read] is the result of [await file.read()]. *)
Record UploadFile : Type := { read : Result bytes }.

(** The loop of [api_image_to_image] over the files still to process,
    [pil_images] being the list built so far. *)
Fixpoint process_files (files : list UploadFile) (pil_images : list Image)
  : M (list Image) :=
  match files with
  | [] => ret pil_images
  | file :: files' =>
      contents <- lift (read file);;
      opened <- lift (Image_open contents);;
      img <- lift (Image_convert opened (lit "RGB"));;
      process_files files' (pil_images ++ [img])
  end.

(** [api_image_to_image(files, prompt, height, width, num_inference_steps,
    guidance_scale, seed)], the endpoint [POST /api/image-to-image]. *)
Definition api_image_to_image (files : list UploadFile) (prompt : str)
    (height width num_inference_steps : Z) (guidance_scale : float)
    (seed : Z) : M JSONResponse :=
  try_except
    (pil_images <- process_files files [];;
     image <- image_to_image (Some pil_images) prompt height width
                num_inference_steps guidance_scale seed;;
     image_base64 <- image_to_base64 image;;
     ret {| content := [ (lit "image", image_base64);
                         (lit "status", lit "success") ] |})
    api_handler.

(** The multi-part form of the image-to-image endpoint as the client sent
    it: every field but [files] and [prompt] may be left out. *)
Record ImageToImageForm : Type := {
  form_files : list UploadFile;
  form_prompt : str;
  form_height : option Z;
  form_width : option Z;
  form_num_inference_steps : option Z;
  form_guidance_scale : option float;
  form_seed : option Z
}.

(** The arguments [api_image_to_image] is called with for a form: the
    [Form(...)] defaults of its signature fill the fields left out. *)
Record ImageToImageArgs : Type := {
  arg_files : list UploadFile;
  arg_prompt : str;
  arg_height : Z;
  arg_width : Z;
  arg_num_inference_steps : Z;
  arg_guidance_scale : float;
  arg_seed : Z
}.

Definition ImageToImageArgs_of_form (f : ImageToImageForm) : ImageToImageArgs :=
  {| arg_files := form_files f;
     arg_prompt := form_prompt f;
     arg_height := field 1056%Z (form_height f);
     arg_width := field 1024%Z (form_width f);
     arg_num_inference_steps := field 50%Z (form_num_inference_steps f);
     arg_guidance_scale := field 1.5%float (form_guidance_scale f);
     arg_seed := field 42%Z (form_seed f) |}.

(** A request to [POST /api/text-to-image]. *)
Definition post_text_to_image (b : TextToImageBody) : M JSONResponse :=
  api_text_to_image (TextToImageRequest_of_body b).

(** A request to [POST /api/image-to-image]. *)
Definition post_image_to_image (f : ImageToImageForm) : M JSONResponse :=
  let a := ImageToImageArgs_of_form f in
  api_image_to_image (arg_files a) (arg_prompt a) (arg_height a) (arg_width a)
    (arg_num_inference_steps a) (arg_guidance_scale a) (arg_seed a).

(** The message of a refused request. *)
Definition refusal (e : PyExc) : str :=
  lit "Error generating image: " ++ str_exc e.

(** The keyword arguments [text_to_image] calls the pipeline with. *)
Definition text_args prompt height width steps guidance
    (generator : option Generator) : PipeArgs :=
  {| kw_prompt := prompt; kw_image := None; kw_height := height;
     kw_width := width; kw_num_inference_steps := steps;
     kw_guidance_scale := guidance; kw_generator := generator |}.

(** The keyword arguments [image_to_image] calls the pipeline with. *)
Definition image_args (imgs : list Image) prompt height width steps guidance
    (generator : option Generator) : PipeArgs :=
  {| kw_prompt := prompt; kw_image := Some imgs; kw_height := height;
     kw_width := width; kw_num_inference_steps := steps;
     kw_guidance_scale := guidance; kw_generator := generator |}.

(** What the function returns for what the pipeline call answered. *)
Definition first_image (r : Result (PipeOutput Image)) : Result Image :=
  match r with
  | inl e => inl (HTTPException 500 (refusal e))
  | inr out =>
      match images out with
      | [] => inl (HTTPException 500
                     (refusal (IndexError (lit "list index out of range"))))
      | image :: _ => inr image
      end
  end.

(** One uploaded file read, opened and converted, as the loop of
    [api_image_to_image] does it. *)
Definition decoded (file : UploadFile) : Result Image :=
  match read file with
  | inl e => inl e
  | inr contents =>
      match Image_open contents with
      | inl e => inl e
      | inr opened => Image_convert opened (lit "RGB")
      end
  end.

(** All the files decoded, in upload order, or the first failure. *)
Fixpoint decode_all (files : list UploadFile) : Result (list Image) :=
  match files with
  | [] => inr []
  | file :: files' =>
      match decoded file with
      | inl e => inl e
      | inr img =>
          match decode_all files' with
          | inl e => inl e
          | inr imgs => inr (img :: imgs)
          end
      end
  end.

(** The exception an endpoint raises for an exception of its [try] block. *)
Definition reraised (e : PyExc) : PyExc :=
  if is_HTTPException e then e else HTTPException 500 (str_exc e).

(** The success envelope. *)
Definition envelope (image_base64 : str) : JSONResponse :=
  {| content := [ (lit "image", image_base64); (lit "status", lit "success") ] |}.

(** What an endpoint answers for what its generation function returned. *)
Definition answer (r : Result Image) : Result JSONResponse :=
  match r with
  | inl e => inl (reraised e)
  | inr image =>
      match Image_save image (lit "PNG") with
      | inl e => inl (reraised e)
      | inr png => inr (envelope (data_uri_prefix ++ decode (Base64.b64encode png)))
      end
  end.

(** What a computation answers from a state, and the pipeline calls it
    adds to the history. *)
Definition outcome {A} (m : M A) (w : World) : Result A := fst (m w).

Definition calls_after {A} (m : M A) (w : World) : list PipeArgs :=
  calls (snd (m w)).

(** The state once the line announcing the generation has been printed
    and the pipeline has been called with [args], leaving the random
    source at [r]. *)
Definition called (w : World) (line : str) (args : PipeArgs) (r : N) : World :=
  {| pipe := pipe w; rng := r; stdout := stdout w ++ [line];
     calls := calls w ++ [args] |}.

(** The three ways a generation function ends, from the state [w]: it
    refuses before it calls the pipeline; it calls the pipeline and fails;
    it calls the pipeline and returns the image. A failure is printed and
    raised with status 500. *)
Inductive Ran (w : World) : Result Image * World -> Prop :=
| Refused (e : PyExc) :
    Ran w (inl (HTTPException 500 (refusal e)), snd (print (refusal e) w))
| Failed (e : PyExc) (line : str) (args : PipeArgs) (r : N) :
    Ran w (inl (HTTPException 500 (refusal e)),
           snd (print (refusal e) (called w line args r)))
| Returned (image : Image) (line : str) (args : PipeArgs) (r : N) :
    Ran w (inr image, called w line args r).

(** The startup half of [lifespan], which runs before the application
    serves a request: [load_model()], its exception not caught. *)
Definition lifespan_startup : M unit := load_model;; ret tt.

(** A request to one of the two [app.post] routes. *)
Inductive Request : Type :=
| TextToImage (body : TextToImageBody)
| ImageToImage (form : ImageToImageForm).

(** The endpoint a request is routed to. *)
Definition route (request : Request) : M JSONResponse :=
  match request with
  | TextToImage body => post_text_to_image body
  | ImageToImage form => post_image_to_image form
  end.

(** Requests served one after the other: what each one was answered, and
    the state left. An exception ends its own request only. *)
Fixpoint serve (requests : list Request) (w : World)
  : list (Result JSONResponse) * World :=
  match requests with
  | [] => ([], w)
  | request :: requests' =>
      let '(answered, w') := route request w in
      let '(answers, w'') := serve requests' w' in
      (answered :: answers, w'')
  end.

End Program.

(* ------------------------------------------------------------------ *)
(** ** A small instance of the libraries, to run the program on *)

Module Sample.

(** An image: its mode and its raw data. *)
Record SampleImage : Type := { mode : str; data : bytes }.

Definition unidentified : PyExc :=
  LibraryError (lit "UnidentifiedImageError") (lit "cannot identify image file").

(** The bytes of an ASCII text. *)
Definition ascii (s : string) : bytes :=
  List.map byte_of_ascii (list_ascii_of_string s).

(** The picture the sample pipeline paints, whatever it is asked. *)
Definition painted : SampleImage :=
  {| mode := lit "RGB"; data := ascii "Man" |}.

(** The sample pipeline: it paints and advances the random source. *)
Definition paint : PipeCall SampleImage (str * Z) :=
  fun _ r => (inr {| images := [painted] |}, (r + 1)%N).

Definition libs : Libs :=
  {| Image := SampleImage;
     Generator := (str * Z)%type;
     torch_Generator := fun d => inr (d, 0%Z);
     manual_seed := fun g s => inr (fst g, s);
     Image_open := fun b =>
       match b with
       | [] => inl unidentified
       | _ :: _ => inr {| mode := lit "P"; data := b |}
       end;
     Image_convert := fun i m => inr {| mode := m; data := data i |};
     Image_save := fun i _ => inr (data i);
     from_pretrained := fun _ _ => inr paint;
     HTTPException_str := fun status detail => of_Z status ++ lit ": " ++ detail |}.

(** The process before [load_model] has run. *)
Definition starting : World (L := libs) :=
  {| pipe := None; rng := 0; stdout := []; calls := [] |}.

(** The pipeline [load_model] installs. *)
Definition pipeline : Pipeline (L := libs) :=
  @Build_Pipeline libs (lit "cuda") paint.

(** The process once [load_model] has run. *)
Definition loaded : World (L := libs) := snd (load_model starting).

Definition body (p : string) : TextToImageBody :=
  {| body_prompt := lit p; body_height := None; body_width := None;
     body_num_inference_steps := None; body_guidance_scale := None;
     body_seed := None |}.

Definition upload (s : string) : UploadFile :=
  {| read := inr (ascii s) |}.

(** A pipeline that runs out of memory, and the process with it loaded. *)
Definition out_of_memory : PyExc :=
  LibraryError (lit "OutOfMemoryError") (lit "CUDA out of memory.").

Definition exhausted : World (L := libs) :=
  {| pipe := Some (@Build_Pipeline libs (lit "cuda")
                     (fun _ r => (inl out_of_memory, r)));
     rng := 0; stdout := []; calls := [] |}.

(** The same libraries with a PIL that cannot write PNG files, and the
    process with the sample pipeline loaded. *)
Definition cannot_write : PyExc :=
  LibraryError (lit "OSError") (lit "encoder zip not available").

Definition libs_without_png : Libs :=
  {| Image := SampleImage;
     Generator := (str * Z)%type;
     torch_Generator := fun d => inr (d, 0%Z);
     manual_seed := fun g s => inr (fst g, s);
     Image_open := fun b => inr {| mode := lit "P"; data := b |};
     Image_convert := fun i m => inr {| mode := m; data := data i |};
     Image_save := fun _ _ => inl cannot_write;
     from_pretrained := fun _ _ => inr paint;
     HTTPException_str := fun status detail => of_Z status ++ lit ": " ++ detail |}.

Definition loaded_without_png : World (L := libs_without_png) :=
  snd (load_model (L := libs_without_png)
         {| pipe := None; rng := 0; stdout := []; calls := [] |}).

Definition form (fs : list string) (p : string) : ImageToImageForm :=
  {| form_files := List.map upload fs; form_prompt := lit p;
     form_height := None; form_width := None;
     form_num_inference_steps := None; form_guidance_scale := None;
     form_seed := None |}.

End Sample.

(* ------------------------------------------------------------------ *)
(** ** Strings: what [strip] leaves of a blank string *)

Section StripFacts.

Lemma lstrip_blank (s : str) : blank s = true -> lstrip s = [].
Proof.
  induction s as [|c s IH]; simpl; [reflexivity|].
  intros H; apply andb_true_iff in H as [Hc Hs].
  rewrite Hc; auto.
Qed.

Lemma lstrip_nil_blank (s : str) : lstrip s = [] -> blank s = true.
Proof.
  induction s as [|c s IH]; simpl; [reflexivity|].
  destruct (isspace c); simpl; [exact IH | discriminate].
Qed.

Lemma lstrip_idempotent (s : str) : lstrip (lstrip s) = lstrip s.
Proof.
  induction s as [|c s IH]; simpl; [reflexivity|].
  destruct (isspace c) eqn:Hc; [exact IH|].
  simpl; rewrite Hc; reflexivity.
Qed.

Lemma blank_rev (s : str) : blank (rev s) = blank s.
Proof.
  unfold blank.
  induction s as [|c s IH]; simpl; [reflexivity|].
  rewrite forallb_app, IH; simpl.
  rewrite andb_true_r; apply andb_comm.
Qed.

Lemma strip_nil_iff (s : str) : strip s = [] <-> blank s = true.
Proof.
  unfold strip, rstrip; split.
  - intros H.
    apply (f_equal (@rev N)) in H; rewrite rev_involutive in H; simpl in H.
    apply lstrip_nil_blank in H; rewrite blank_rev in H.
    apply lstrip_nil_blank.
    rewrite <- lstrip_idempotent; apply lstrip_blank; exact H.
  - intros H; rewrite (lstrip_blank s H); reflexivity.
Qed.

(** The test both generation functions apply to the prompt,
    [not prompt or not prompt.strip()], is true exactly of the blank
    prompts. *)
Lemma prompt_test_blank (prompt : str) :
  negb (truthy prompt) || negb (truthy (strip prompt)) = blank prompt.
Proof.
  destruct (blank prompt) eqn:Hb.
  - apply strip_nil_iff in Hb; rewrite Hb; simpl; apply orb_true_r.
  - destruct prompt as [|c s]; [discriminate|].
    destruct (strip (c :: s)) eqn:Hs; [|reflexivity].
    apply strip_nil_iff in Hs; congruence.
Qed.

End StripFacts.

(* ------------------------------------------------------------------ *)
(** ** Base64: the encoding is ASCII text *)

Section Base64Facts.

Lemma get_In (s : string) (n : nat) (a : Ascii.ascii) :
  String.get n s = Some a -> In a (list_ascii_of_string s).
Proof.
  revert n; induction s as [|c s IH]; intros n; simpl; [discriminate|].
  destruct n as [|n].
  - intros H; inversion H; left; reflexivity.
  - intros H; right; exact (IH n H).
Qed.

Lemma char_ascii (i : N) : (Byte.to_N (Base64.char i) < 128)%N.
Proof.
  unfold Base64.char.
  destruct (String.get (N.to_nat i) Base64.alphabet) as [a|] eqn:Ha;
    [|reflexivity].
  apply get_In in Ha. revert a Ha. apply Forall_forall.
  unfold Base64.alphabet; simpl. repeat constructor.
Qed.

Lemma pad_ascii : (Byte.to_N Base64.pad < 128)%N.
Proof. reflexivity. Qed.

(** Every byte [b64encode] writes is below 128, so that decoding its
    output character by character is what [.decode()] does. *)
Lemma b64encode_ascii (b : bytes) :
  Forall (fun c => (Byte.to_N c < 128)%N) (Base64.b64encode b).
Proof.
  assert (H : forall n b, (List.length b <= n)%nat ->
              Forall (fun c => (Byte.to_N c < 128)%N) (Base64.b64encode b)).
  { induction n as [|n IH]; intros [|x [|y [|z rest]]] Hn;
      cbn [List.length] in Hn; try lia; cbn [Base64.b64encode];
      try apply Forall_nil.
    - repeat (apply Forall_cons; [apply char_ascii || apply pad_ascii|]).
      apply Forall_nil.
    - repeat (apply Forall_cons; [apply char_ascii || apply pad_ascii|]).
      apply Forall_nil.
    - apply Forall_app; split; [|apply IH; lia].
      unfold Base64.group3.
      repeat (apply Forall_cons; [apply char_ascii|]). apply Forall_nil. }
  exact (H (List.length b) b (le_n _)).
Qed.

(** The encoding of [n] bytes has four characters for every three bytes,
    the last group padded. *)
Lemma b64encode_length (b : bytes) :
  List.length (Base64.b64encode b) = (4 * ((List.length b + 2) / 3))%nat.
Proof.
  assert (H : forall n b, (List.length b <= n)%nat ->
              List.length (Base64.b64encode b)
              = (4 * ((List.length b + 2) / 3))%nat).
  { induction n as [|n IH]; intros [|x [|y [|z rest]]] Hn;
      try reflexivity; cbn [List.length] in Hn; try lia.
    cbn [Base64.b64encode]. unfold Base64.group3.
    cbn [List.app List.length].
    rewrite (IH rest) by lia.
    replace (S (S (S (List.length rest))) + 2)%nat
      with (List.length rest + 2 + 1 * 3)%nat by lia.
    rewrite Nat.div_add by lia. lia. }
  exact (H (List.length b) b (le_n _)).
Qed.

End Base64Facts.

(* ------------------------------------------------------------------ *)
(** ** Base64: decoding undoes encoding *)

Section Base64RoundTrip.

Local Open Scope N_scope.

Lemma below_64 (i : N) : i < 64 -> In i (List.map N.of_nat (seq 0 64)).
Proof.
  intros H. rewrite <- (N2Nat.id i). apply in_map. apply in_seq. lia.
Qed.

(** [index] undoes [char] on the six-bit values, and no character of a
    six-bit value is the padding. *)
Lemma index_char (i : N) :
  i < 64 -> Base64.index (Base64.char i) = Some i
            /\ Byte.eqb (Base64.char i) Base64.pad = false.
Proof.
  intros H. apply below_64 in H.
  assert (Hall : forallb (fun j =>
                   match Base64.index (Base64.char j) with
                   | Some k => N.eqb k j
                   | None => false
                   end && negb (Byte.eqb (Base64.char j) Base64.pad))
                   (List.map N.of_nat (seq 0 64)) = true)
    by (vm_compute; reflexivity).
  rewrite forallb_forall in Hall. specialize (Hall i H).
  apply andb_true_iff in Hall as [H1 H2].
  destruct (Base64.index (Base64.char i)) as [k|]; [|discriminate].
  apply N.eqb_eq in H1; subst k.
  apply negb_true_iff in H2. split; [reflexivity | exact H2].
Qed.

Lemma sextet_below (n k : N) : N.land (N.shiftr n k) 63 < 64.
Proof.
  change 63 with (N.ones 6). rewrite N.land_ones.
  apply N.mod_lt. discriminate.
Qed.

Lemma land_below (n : N) : N.land n 63 < 64.
Proof.
  change 63 with (N.ones 6). rewrite N.land_ones.
  apply N.mod_lt. discriminate.
Qed.

(** Shifts and masks by constants as multiplications, divisions and
    remainders. *)
Ltac bits :=
  change 63 with (N.ones 6); change 255 with (N.ones 8);
  rewrite ?N.land_ones, ?N.shiftl_mul_pow2, ?N.shiftr_div_pow2;
  change (2 ^ 18) with 262144; change (2 ^ 16) with 65536;
  change (2 ^ 12) with 4096; change (2 ^ 8) with 256;
  change (2 ^ 6) with 64.

(** The four six-bit values of a 24-bit value put it together again. *)
Lemma sextets_value (n : N) :
  n < 16777216 ->
  N.shiftl (N.land (N.shiftr n 18) 63) 18
  + N.shiftl (N.land (N.shiftr n 12) 63) 12
  + N.shiftl (N.land (N.shiftr n 6) 63) 6
  + N.land n 63 = n.
Proof.
  intros H. change 63 with (N.ones 6).
  rewrite !N.land_ones, !N.shiftl_mul_pow2, !N.shiftr_div_pow2.
  change (2 ^ 18) with 262144. change (2 ^ 12) with 4096.
  change (2 ^ 6) with 64.
  replace (n / 4096) with (n / 64 / 64)
    by (rewrite N.Div0.div_div; reflexivity).
  replace (n / 262144) with (n / 64 / 64 / 64)
    by (rewrite !N.Div0.div_div; reflexivity).
  pose proof (N.div_mod n 64 ltac:(discriminate)).
  pose proof (N.div_mod (n / 64) 64 ltac:(discriminate)).
  pose proof (N.div_mod (n / 64 / 64) 64 ltac:(discriminate)).
  assert (n / 64 / 64 / 64 < 64).
  { rewrite !N.Div0.div_div. apply N.Div0.div_lt_upper_bound. exact H. }
  rewrite (N.mod_small (n / 64 / 64 / 64)) by assumption.
  lia.
Qed.

(** The three bytes of the 24-bit value of three bytes. *)
Lemma octets_value (a b c : N) :
  a <= 255 -> b <= 255 -> c <= 255 ->
  let n := N.shiftl a 16 + N.shiftl b 8 + c in
  n < 16777216
  /\ N.land (N.shiftr n 16) 255 = a
  /\ N.land (N.shiftr n 8) 255 = b
  /\ N.land n 255 = c.
Proof.
  intros Ha Hb Hc n. subst n. bits. repeat split.
  - lia.
  - rewrite <- (N.div_unique (a * 65536 + b * 256 + c) 65536 a (b * 256 + c))
      by lia.
    apply N.mod_small; lia.
  - rewrite <- (N.div_unique (a * 65536 + b * 256 + c) 256 (a * 256 + b) c)
      by lia.
    symmetry; apply (N.mod_unique _ 256 a b); lia.
  - symmetry; apply (N.mod_unique _ 256 (a * 256 + b) c); lia.
Qed.

(** With one or two bytes only, the last six-bit values are zero. *)
Lemma low_sextets (a b : N) :
  let n := N.shiftl a 16 + N.shiftl b 8 in
  N.land n 63 = 0
  /\ (b = 0 -> N.land (N.shiftr n 6) 63 = 0).
Proof.
  intros n. subst n. bits. split.
  - symmetry; apply (N.mod_unique _ 64 (a * 1024 + b * 4) 0); lia.
  - intros ->.
    rewrite <- (N.div_unique (a * 65536 + 0 * 256) 64 (a * 1024) 0) by lia.
    symmetry; apply (N.mod_unique _ 64 (a * 16) 0); lia.
Qed.

(** The four characters of a 24-bit value decode to it. *)
Lemma quad_chars (n : N) :
  n < 16777216 ->
  Base64.quad (Base64.index (Base64.char (N.land (N.shiftr n 18) 63)))
              (Base64.index (Base64.char (N.land (N.shiftr n 12) 63)))
              (Base64.index (Base64.char (N.land (N.shiftr n 6) 63)))
              (Base64.index (Base64.char (N.land n 63)))
  = Some n.
Proof.
  intros H.
  rewrite !(proj1 (index_char (sextet_below n _))).
  rewrite (proj1 (index_char (land_below n))).
  unfold Base64.quad. rewrite (sextets_value H). reflexivity.
Qed.

(** The 24-bit value of up to three bytes, and its bytes back. *)
Lemma octets_bytes (k : nat) (a b c : byte) :
  let n := N.shiftl (Byte.to_N a) 16 + N.shiftl (Byte.to_N b) 8 + Byte.to_N c in
  n < 16777216 /\ Base64.octets k n = Some (firstn k [a; b; c]).
Proof.
  intros n.
  destruct (octets_value (Byte.to_N_bounded a) (Byte.to_N_bounded b)
              (Byte.to_N_bounded c)) as (Hn & Ha & Hb & Hc).
  fold n in Hn, Ha, Hb, Hc. split; [exact Hn|].
  unfold Base64.octets. rewrite Ha, Hb, Hc, !Byte.of_to_N. reflexivity.
Qed.

Lemma one_byte_value (a : byte) :
  N.shiftl (Byte.to_N a) 16
  = N.shiftl (Byte.to_N a) 16 + N.shiftl (Byte.to_N Byte.x00) 8
    + Byte.to_N Byte.x00.
Proof.
  change (Byte.to_N Byte.x00) with 0. change (N.shiftl 0 8) with 0.
  rewrite !N.add_0_r. reflexivity.
Qed.

Lemma two_bytes_value (a b : byte) :
  N.shiftl (Byte.to_N a) 16 + N.shiftl (Byte.to_N b) 8
  = N.shiftl (Byte.to_N a) 16 + N.shiftl (Byte.to_N b) 8
    + Byte.to_N Byte.x00.
Proof.
  change (Byte.to_N Byte.x00) with 0. rewrite N.add_0_r. reflexivity.
Qed.

Lemma b64encode_nil (b : bytes) : Base64.b64encode b = [] -> b = [].
Proof.
  destruct b as [|x [|y [|z rest]]]; [reflexivity | discriminate..].
Qed.

(** Decoding undoes encoding. *)
Lemma b64decode_b64encode (b : bytes) :
  Base64.b64decode (Base64.b64encode b) = Some b.
Proof.
  assert (H : forall n b, (List.length b <= n)%nat ->
              Base64.b64decode (Base64.b64encode b) = Some b).
  { induction n as [|n IH]; intros [|x [|y [|z rest]]] Hn;
      cbn [List.length] in Hn; try lia; try reflexivity.
    - (* one byte *)
      cbn [Base64.b64encode Base64.b64decode].
      change (Byte.eqb Base64.pad Base64.pad) with true. cbv iota.
      set (v := N.shiftl (Byte.to_N x) 16).
      pose proof (one_byte_value x) as Hv. fold v in Hv.
      destruct (octets_bytes 1 x Byte.x00 Byte.x00) as [Hlt Ho].
      cbv zeta in Hlt, Ho. fold v in Hlt, Ho. rewrite <- Hv in Hlt, Ho.
      destruct (low_sextets (Byte.to_N x) 0) as [H4 H3].
      change (N.shiftl 0 8) with 0 in H4, H3. rewrite N.add_0_r in H4, H3.
      fold v in H4, H3. specialize (H3 eq_refl).
      pose proof (quad_chars Hlt) as Hq. rewrite H3, H4 in Hq.
      rewrite (proj1 (index_char (i := 0) eq_refl)) in Hq.
      rewrite Hq. exact Ho.
    - (* two bytes *)
      cbn [Base64.b64encode Base64.b64decode].
      change (Byte.eqb Base64.pad Base64.pad) with true. cbv iota.
      set (v := N.shiftl (Byte.to_N x) 16 + N.shiftl (Byte.to_N y) 8).
      pose proof (two_bytes_value x y) as Hv. fold v in Hv.
      destruct (octets_bytes 2 x y Byte.x00) as [Hlt Ho].
      cbv zeta in Hlt, Ho. fold v in Hlt, Ho. rewrite <- Hv in Hlt, Ho.
      destruct (low_sextets (Byte.to_N x) (Byte.to_N y)) as [H4 _].
      fold v in H4.
      pose proof (quad_chars Hlt) as Hq. rewrite H4 in Hq.
      rewrite (proj1 (index_char (i := 0) eq_refl)) in Hq.
      rewrite (proj2 (index_char (sextet_below v 6))).
      rewrite Hq. exact Ho.
    - (* three bytes and more *)
      cbn [Base64.b64encode]. unfold Base64.group3. cbn [List.app].
      set (v := N.shiftl (Byte.to_N x) 16 + N.shiftl (Byte.to_N y) 8
                + Byte.to_N z).
      destruct (octets_bytes 3 x y z) as [Hlt Ho].
      cbv zeta in Hlt, Ho. fold v in Hlt, Ho.
      pose proof (quad_chars Hlt) as Hq.
      cbn [Base64.b64decode].
      destruct (Base64.b64encode rest) as [|c5 cs] eqn:Hr.
      + apply b64encode_nil in Hr; subst rest.
        rewrite (proj2 (index_char (land_below v))).
        rewrite Hq. exact Ho.
      + rewrite Hq. rewrite <- Hr. rewrite (IH rest) by lia.
        rewrite Ho. reflexivity. }
  exact (H (List.length b) b (le_n _)).
Qed.

End Base64RoundTrip.

(** The test vectors of RFC 4648 for [b64encode]. *)
Example b64encode_rfc4648 :
  List.map (fun s => decode (Base64.b64encode (Sample.ascii s)))
    [EmptyString; "f"; "fo"; "foo"; "foob"; "fooba"; "foobar"]%string
  = [ []; lit "Zg=="; lit "Zm8="; lit "Zm9v"; lit "Zm9vYg==";
      lit "Zm9vYmE="; lit "Zm9vYmFy" ].
Proof. reflexivity. Qed.

(* ------------------------------------------------------------------ *)
(** ** What the two generation functions do, case by case *)

Section Generation.

Context {L : Libs}.

(** Unfolds the statement combinators. *)
Ltac run :=
  unfold outcome, calls_after, text_to_image, image_to_image, image_to_base64,
    generation_handler, try_except, bind, ret, raise, lift, get_pipe, print,
    call, index0, len; simpl.

(** Building the generator reads torch only: the state is unchanged. *)
Lemma make_generator_state (seed : Z) (w : World) :
  snd (make_generator seed w) = w.
Proof.
  unfold make_generator, bind, lift, ret.
  destruct (seed >=? 0)%Z; [|reflexivity].
  destruct (torch_Generator (lit "cuda")) as [e|g0]; [reflexivity|].
  destruct (manual_seed g0 seed); reflexivity.
Qed.

Lemma make_generator_eq (seed : Z) (w : World) :
  make_generator seed w = (outcome (make_generator seed) w, w).
Proof.
  unfold outcome.
  rewrite <- (make_generator_state seed w) at 3.
  destruct (make_generator seed w); reflexivity.
Qed.

(** A blank prompt: [text_to_image] prints the message and raises it with
    status 500; the state is otherwise as before. *)
Lemma text_to_image_blank prompt height width steps guidance seed w :
  blank prompt = true ->
  text_to_image prompt height width steps guidance seed w
  = (inl (HTTPException 500 (refusal (ValueError (lit "Please enter a prompt")))),
     snd (print (refusal (ValueError (lit "Please enter a prompt"))) w)).
Proof.
  intros Hb. run. rewrite prompt_test_blank, Hb. reflexivity.
Qed.

(** A prompt that passes, before the model is loaded: the 503 raised in the
    [try] block is caught by the function's own handler. *)
Lemma text_to_image_not_loaded prompt height width steps guidance seed w :
  blank prompt = false -> pipe w = None ->
  text_to_image prompt height width steps guidance seed w
  = (inl (HTTPException 500 (refusal (HTTPException 503 not_loaded_detail))),
     snd (print (refusal (HTTPException 503 not_loaded_detail)) w)).
Proof.
  intros Hb Hp. destruct w as [pp r out cs]; simpl in Hp; subst pp.
  run. rewrite prompt_test_blank, Hb. reflexivity.
Qed.

(** A prompt that passes, the model loaded, the generator built: one
    pipeline call, with the arguments as received. *)
Lemma text_to_image_calls prompt height width steps guidance seed w p g :
  blank prompt = false -> pipe w = Some p ->
  outcome (make_generator seed) w = inr g ->
  let args := text_args prompt height width steps guidance g in
  calls_after (text_to_image prompt height width steps guidance seed) w
  = calls w ++ [args]
  /\ outcome (text_to_image prompt height width steps guidance seed) w
     = first_image (fst (pipe_call p args (rng w))).
Proof.
  intros Hb Hp Hg args. destruct w as [pp r out cs]; simpl in Hp; subst pp.
  run. rewrite prompt_test_blank, Hb; simpl.
  rewrite make_generator_eq, Hg; simpl.
  fold (text_args prompt height width steps guidance g); fold args.
  destruct (pipe_call p args r) as [[e|res] r']; simpl.
  - split; reflexivity.
  - destruct (images res); split; reflexivity.
Qed.

(** The generator cannot be built: no pipeline call. *)
Lemma text_to_image_no_generator prompt height width steps guidance seed w p e :
  blank prompt = false -> pipe w = Some p ->
  outcome (make_generator seed) w = inl e ->
  text_to_image prompt height width steps guidance seed w
  = (inl (HTTPException 500 (refusal e)), snd (print (refusal e) w)).
Proof.
  intros Hb Hp Hg. destruct w as [pp r out cs]; simpl in Hp; subst pp.
  run. rewrite prompt_test_blank, Hb; simpl.
  rewrite make_generator_eq, Hg; reflexivity.
Qed.

(** No image: [image_to_image] refuses before it looks at the prompt or
    at the model. *)
Lemma image_to_image_no_image imgs prompt height width steps guidance seed w :
  none_or_empty imgs = true ->
  image_to_image imgs prompt height width steps guidance seed w
  = (inl (HTTPException 500
            (refusal (ValueError (lit "Please upload at least one image")))),
     snd (print (refusal (ValueError (lit "Please upload at least one image"))) w)).
Proof.
  intros He. run. rewrite He. reflexivity.
Qed.

Lemma image_to_image_blank imgs prompt height width steps guidance seed w :
  none_or_empty imgs = false -> blank prompt = true ->
  image_to_image imgs prompt height width steps guidance seed w
  = (inl (HTTPException 500 (refusal (ValueError (lit "Please enter a prompt")))),
     snd (print (refusal (ValueError (lit "Please enter a prompt"))) w)).
Proof.
  intros He Hb. run. rewrite He; simpl. rewrite prompt_test_blank, Hb. reflexivity.
Qed.

Lemma image_to_image_not_loaded imgs prompt height width steps guidance seed w :
  none_or_empty imgs = false -> blank prompt = false -> pipe w = None ->
  image_to_image imgs prompt height width steps guidance seed w
  = (inl (HTTPException 500 (refusal (HTTPException 503 not_loaded_detail))),
     snd (print (refusal (HTTPException 503 not_loaded_detail)) w)).
Proof.
  intros He Hb Hp. destruct w as [pp r out cs]; simpl in Hp; subst pp.
  run. rewrite He; simpl. rewrite prompt_test_blank, Hb. reflexivity.
Qed.

Lemma image_to_image_calls imgs prompt height width steps guidance seed w p g :
  imgs <> [] -> blank prompt = false -> pipe w = Some p ->
  outcome (make_generator seed) w = inr g ->
  let args := image_args imgs prompt height width steps guidance g in
  calls_after (image_to_image (Some imgs) prompt height width steps guidance seed) w
  = calls w ++ [args]
  /\ outcome (image_to_image (Some imgs) prompt height width steps guidance seed) w
     = first_image (fst (pipe_call p args (rng w))).
Proof.
  intros He Hb Hp Hg args. destruct w as [pp r out cs]; simpl in Hp; subst pp.
  destruct imgs as [|i0 imgs]; [congruence|].
  run. rewrite prompt_test_blank, Hb; simpl.
  rewrite make_generator_eq, Hg; simpl.
  fold (image_args (i0 :: imgs) prompt height width steps guidance g); fold args.
  destruct (pipe_call p args r) as [[e|res] r']; simpl.
  - split; reflexivity.
  - destruct (images res); split; reflexivity.
Qed.

Lemma image_to_image_no_generator imgs prompt height width steps guidance seed w p e :
  none_or_empty imgs = false -> blank prompt = false -> pipe w = Some p ->
  outcome (make_generator seed) w = inl e ->
  image_to_image imgs prompt height width steps guidance seed w
  = (inl (HTTPException 500 (refusal e)), snd (print (refusal e) w)).
Proof.
  intros He Hb Hp Hg. destruct w as [pp r out cs]; simpl in Hp; subst pp.
  run. rewrite He; simpl. rewrite prompt_test_blank, Hb; simpl.
  rewrite make_generator_eq, Hg; reflexivity.
Qed.

(** Both generation functions raise nothing but [HTTPException] with
    status 500, and add at most one call to the history. *)
Lemma text_to_image_raises prompt height width steps guidance seed w e :
  outcome (text_to_image prompt height width steps guidance seed) w = inl e ->
  exists detail, e = HTTPException 500 detail.
Proof.
  unfold outcome, text_to_image, try_except, generation_handler.
  match goal with |- context [bind ?a ?b w] => destruct (bind a b w) as [[e'|i] w'] end.
  - unfold bind, print, raise; simpl. intros H; inversion H; eauto.
  - discriminate.
Qed.

Lemma image_to_image_raises imgs prompt height width steps guidance seed w e :
  outcome (image_to_image imgs prompt height width steps guidance seed) w = inl e ->
  exists detail, e = HTTPException 500 detail.
Proof.
  unfold outcome, image_to_image, try_except, generation_handler.
  match goal with |- context [bind ?a ?b w] => destruct (bind a b w) as [[e'|i] w'] end.
  - unfold bind, print, raise; simpl. intros H; inversion H; eauto.
  - discriminate.
Qed.

End Generation.

(* ------------------------------------------------------------------ *)
(** ** What the two endpoints do *)

Section Endpoints.

Context {L : Libs}.

Lemma api_handler_eq {A} (e : PyExc) (w : World) :
  api_handler (A := A) e w = (inl (reraised e), w).
Proof.
  unfold api_handler, reraised, raise. destruct (is_HTTPException e); reflexivity.
Qed.

(** The text-to-image endpoint in terms of [text_to_image]: the state is
    the one [text_to_image] leaves. *)
Lemma api_text_to_image_eq (request : TextToImageRequest) (w : World) :
  let m := text_to_image (prompt request) (height request) (width request)
             (num_inference_steps request) (guidance_scale request)
             (seed request) in
  api_text_to_image request w = (answer (outcome m w), snd (m w)).
Proof.
  intros m. unfold api_text_to_image, try_except, bind, outcome. fold m.
  destruct (m w) as [[e|image] w']; simpl.
  - apply api_handler_eq.
  - unfold image_to_base64, bind, lift, ret.
    destruct (Image_save image (lit "PNG")) as [e|png]; [apply api_handler_eq | reflexivity].
Qed.

(** The loop over the files: it leaves the state alone and appends the
    decoded files to the list, in order. *)
Lemma process_files_eq (files : list UploadFile) (acc : list Image) (w : World) :
  process_files files acc w
  = (match decode_all files with
     | inl e => inl e
     | inr imgs => inr (acc ++ imgs)
     end, w).
Proof.
  revert acc; induction files as [|file files IH]; intros acc; simpl.
  - unfold ret; rewrite app_nil_r; reflexivity.
  - unfold bind, lift, decoded.
    destruct (read file) as [e|contents]; [reflexivity|].
    destruct (Image_open contents) as [e|opened]; [reflexivity|].
    destruct (Image_convert opened (lit "RGB")) as [e|img]; [reflexivity|].
    rewrite IH. destruct (decode_all files) as [e|imgs]; [reflexivity|].
    rewrite <- app_assoc; reflexivity.
Qed.

(** The image-to-image endpoint in terms of [image_to_image]. *)
Lemma api_image_to_image_eq files prompt height width steps guidance seed w :
  api_image_to_image files prompt height width steps guidance seed w
  = match decode_all files with
    | inl e => (inl (reraised e), w)
    | inr imgs =>
        let m := image_to_image (Some imgs) prompt height width steps guidance seed in
        (answer (outcome m w), snd (m w))
    end.
Proof.
  unfold api_image_to_image, try_except, bind at 1. rewrite process_files_eq.
  destruct (decode_all files) as [e|imgs]; simpl; [apply api_handler_eq|].
  unfold bind, outcome.
  destruct (image_to_image (Some imgs) prompt height width steps guidance seed w)
    as [[e|image] w']; simpl.
  - apply api_handler_eq.
  - unfold image_to_base64, bind, lift, ret.
    destruct (Image_save image (lit "PNG")) as [e|png]; [apply api_handler_eq | reflexivity].
Qed.

(** The decoded list has one image per file, the Nth from the Nth. *)
Lemma decode_all_nth (files : list UploadFile) (imgs : list Image) :
  decode_all files = inr imgs ->
  List.length imgs = List.length files
  /\ forall n file, nth_error files n = Some file ->
       exists img, nth_error imgs n = Some img /\ decoded file = inr img.
Proof.
  revert imgs; induction files as [|f files IH]; intros imgs; simpl.
  - intros H; inversion H; subst; split; [reflexivity|].
    intros [|n] file; discriminate.
  - destruct (decoded f) as [e|img] eqn:Hf; [discriminate|].
    destruct (decode_all files) as [e|rest]; [discriminate|].
    intros H; inversion H; subst; clear H.
    destruct (IH rest eq_refl) as [Hlen Hnth].
    split; [simpl; congruence|].
    intros [|n] file; simpl.
    + intros H; inversion H; subst; eauto.
    + apply Hnth.
Qed.

End Endpoints.

(* ------------------------------------------------------------------ *)
(** ** The properties of the specification *)

Section Claims.

Context {L : Libs}.

(** [load_model] asks for the CUDA device. *)
Lemma load_model_device (w0 : World) (p : Pipeline) :
  outcome load_model w0 = inr p -> pipe_device_map p = lit "cuda".
Proof.
  unfold outcome, load_model, bind, print, lift, set_pipe, ret; simpl.
  destruct (from_pretrained (lit "zai-org/GLM-Image") (lit "cuda")) as [e|f]; simpl.
  - discriminate.
  - intros H; inversion H; reflexivity.
Qed.

Lemma make_generator_seeded (seed : Z) (w : World) (g0 g : Generator) :
  (seed >= 0)%Z -> torch_Generator (lit "cuda") = inr g0 ->
  manual_seed g0 seed = inr g ->
  outcome (make_generator seed) w = inr (Some g).
Proof.
  intros Hs H0 Hg. unfold outcome, make_generator, bind, lift, ret.
  replace (seed >=? 0)%Z with true by (symmetry; apply Z.geb_le; lia).
  rewrite H0, Hg; reflexivity.
Qed.

Lemma make_generator_unseeded (seed : Z) (w : World) :
  (seed < 0)%Z -> outcome (make_generator seed) w = inr None.
Proof.
  intros Hs. unfold outcome, make_generator.
  replace (seed >=? 0)%Z with false; [reflexivity|].
  symmetry; rewrite Z.geb_leb; apply Z.leb_gt; lia.
Qed.

(** C1, as the code has it. A request that passes validation while the
    global [pipe] is still [None] is answered with status 500, not 503: the
    [HTTPException] with status 503 is raised inside the [try] block of the
    generation function, whose [except Exception] clause catches it and
    raises a new one with status 500; the endpoint re-raises that one as it
    is. The detail is the 500 prefix followed by [str] of the 503
    exception. *)
Theorem not_loaded_answers_500 (w : World) (request : TextToImageRequest)
    (files : list UploadFile) (imgs : list Image)
    (height width steps : Z) (guidance : float) (seed : Z) :
  pipe w = None -> blank (prompt request) = false ->
  decode_all files = inr imgs -> imgs <> [] ->
  let e := HTTPException 500 (refusal (HTTPException 503 not_loaded_detail)) in
  outcome (api_text_to_image request) w = inl e
  /\ outcome (api_image_to_image files (prompt request) height width steps
                guidance seed) w = inl e.
Proof.
  intros Hp Hb Hd Hne e. split.
  - unfold outcome at 1. rewrite api_text_to_image_eq; simpl.
    unfold outcome. rewrite text_to_image_not_loaded by assumption. reflexivity.
  - unfold outcome at 1. rewrite api_image_to_image_eq, Hd; simpl.
    unfold outcome. rewrite image_to_image_not_loaded; [reflexivity | | assumption..].
    destruct imgs; [congruence | reflexivity].
Qed.

(** C2, as amended. The numeric fields are not validated at all, positivity
    included: for every height, width, step count and guidance scale,
    whatever their sign or size, a request that passes the prompt and image
    checks with the model loaded and the generator built makes exactly one
    pipeline call, and that call carries the four values unchanged. *)
Theorem numeric_fields_pass_unchanged (w : World) (p : Pipeline)
    (g : option Generator) (prompt : str) (imgs : list Image)
    (height width steps : Z) (guidance : float) (seed : Z) :
  blank prompt = false -> pipe w = Some p ->
  outcome (make_generator seed) w = inr g -> imgs <> [] ->
  (exists args,
      calls_after (text_to_image prompt height width steps guidance seed) w
      = calls w ++ [args]
      /\ kw_height args = height /\ kw_width args = width
      /\ kw_num_inference_steps args = steps
      /\ kw_guidance_scale args = guidance)
  /\ (exists args,
      calls_after (image_to_image (Some imgs) prompt height width steps
                     guidance seed) w
      = calls w ++ [args]
      /\ kw_height args = height /\ kw_width args = width
      /\ kw_num_inference_steps args = steps
      /\ kw_guidance_scale args = guidance).
Proof.
  intros Hb Hp Hg Hne. split.
  - exists (text_args prompt height width steps guidance g).
    split; [|repeat split].
    apply (@text_to_image_calls L prompt height width steps guidance seed w p g Hb Hp Hg).
  - exists (image_args imgs prompt height width steps guidance g).
    split; [|repeat split].
    apply (@image_to_image_calls L imgs prompt height width steps guidance seed w p g Hne Hb Hp Hg).
Qed.

(** C3. With the pipeline installed by [load_model], a request that passes
    validation makes one pipeline call; when [seed >= 0] its generator
    argument is the generator torch builds on the device the pipeline was
    loaded on and seeds with exactly [seed]; when [seed < 0] no generator is
    built and the argument is [None]. *)
Theorem generator_follows_seed (w0 w : World) (p : Pipeline) (prompt : str)
    (imgs : list Image) (height width steps : Z) (guidance : float) (seed : Z) :
  outcome load_model w0 = inr p -> pipe w = Some p ->
  blank prompt = false -> imgs <> [] ->
  ((seed >= 0)%Z ->
   forall g0 g, torch_Generator (pipe_device_map p) = inr g0 ->
     manual_seed g0 seed = inr g ->
     calls_after (text_to_image prompt height width steps guidance seed) w
     = calls w ++ [text_args prompt height width steps guidance (Some g)]
     /\ calls_after (image_to_image (Some imgs) prompt height width steps
                       guidance seed) w
        = calls w ++ [image_args imgs prompt height width steps guidance (Some g)])
  /\ ((seed < 0)%Z ->
      calls_after (text_to_image prompt height width steps guidance seed) w
      = calls w ++ [text_args prompt height width steps guidance None]
      /\ calls_after (image_to_image (Some imgs) prompt height width steps
                        guidance seed) w
         = calls w ++ [image_args imgs prompt height width steps guidance None]).
Proof.
  intros Hl Hp Hb Hne. rewrite (load_model_device _ Hl). split.
  - intros Hs g0 g H0 Hg.
    pose proof (make_generator_seeded w Hs H0 Hg) as Hm. split.
    + apply (@text_to_image_calls L prompt height width steps guidance seed w p _ Hb Hp Hm).
    + apply (@image_to_image_calls L imgs prompt height width steps guidance seed w p _ Hne Hb Hp Hm).
  - intros Hs. pose proof (make_generator_unseeded w Hs) as Hm. split.
    + apply (@text_to_image_calls L prompt height width steps guidance seed w p _ Hb Hp Hm).
    + apply (@image_to_image_calls L imgs prompt height width steps guidance seed w p _ Hne Hb Hp Hm).
Qed.

(** C4. The declared defaults: a text-to-image body with only a prompt
    becomes the request (1024, 1152, 50, 1.5, 42); an image-to-image form
    with only files and a prompt becomes the call (1056, 1024, 50, 1.5,
    42). *)
Theorem declared_defaults (prompt : str) (files : list UploadFile) :
  TextToImageRequest_of_body
    {| body_prompt := prompt; body_height := None; body_width := None;
       body_num_inference_steps := None; body_guidance_scale := None;
       body_seed := None |}
  = {| prompt := prompt; height := 1024; width := 1152;
       num_inference_steps := 50; guidance_scale := 1.5; seed := 42 |}
  /\ ImageToImageArgs_of_form
       {| form_files := files; form_prompt := prompt; form_height := None;
          form_width := None; form_num_inference_steps := None;
          form_guidance_scale := None; form_seed := None |}
     = {| arg_files := files; arg_prompt := prompt; arg_height := 1056;
          arg_width := 1024; arg_num_inference_steps := 50;
          arg_guidance_scale := 1.5; arg_seed := 42 |}.
Proof.
  split; reflexivity.
Qed.

Lemma reraised_structured {A} (e : PyExc) :
  exists status detail,
    (inl (reraised e) : Result A) = inl (HTTPException status detail).
Proof.
  unfold reraised. destruct e; simpl; eauto.
Qed.

(** [image_to_image] adds no call to the history, or exactly one, whose
    [image] argument is the list it was given. *)
Lemma image_to_image_calls_cases imgs prompt height width steps guidance seed w :
  let m := image_to_image (Some imgs) prompt height width steps guidance seed in
  calls_after m w = calls w
  \/ exists g, calls_after m w
               = calls w ++ [image_args imgs prompt height width steps guidance g].
Proof.
  intros m. unfold m, calls_after.
  destruct imgs as [|i0 imgs].
  { left. rewrite image_to_image_no_image by reflexivity. reflexivity. }
  destruct (blank prompt) eqn:Hb.
  { left. rewrite image_to_image_blank by (reflexivity || assumption). reflexivity. }
  destruct (pipe w) as [p|] eqn:Hp.
  2: { left. rewrite image_to_image_not_loaded by (reflexivity || assumption).
       reflexivity. }
  destruct (outcome (make_generator seed) w) as [e|g] eqn:Hg.
  { left. rewrite (@image_to_image_no_generator L (Some (i0 :: imgs)) prompt height
                     width steps guidance seed w p e) by (reflexivity || assumption).
    reflexivity. }
  right. exists g.
  apply (@image_to_image_calls L (i0 :: imgs) prompt height width steps guidance
           seed w p g); (discriminate || assumption).
Qed.

(** C5. A blank prompt (empty, or whitespace only) is refused by both
    generation functions and both endpoints with an error response, and the
    history of pipeline calls is left as it was: the model is not
    invoked. *)
Theorem blank_prompt_rejected (w : World) (request : TextToImageRequest)
    (imgs : option (list Image)) (files : list UploadFile)
    (height width steps : Z) (guidance : float) (seed : Z) :
  blank (prompt request) = true ->
  let t2i := text_to_image (prompt request) height width steps guidance seed in
  let i2i := image_to_image imgs (prompt request) height width steps guidance seed in
  let api_i2i := api_image_to_image files (prompt request) height width steps
                   guidance seed in
  let refused := HTTPException 500 (refusal (ValueError (lit "Please enter a prompt"))) in
  (outcome t2i w = inl refused /\ calls_after t2i w = calls w)
  /\ ((outcome i2i w = inl refused
       \/ outcome i2i w
          = inl (HTTPException 500
                   (refusal (ValueError (lit "Please upload at least one image")))))
      /\ calls_after i2i w = calls w)
  /\ (outcome (api_text_to_image request) w = inl refused
      /\ calls_after (api_text_to_image request) w = calls w)
  /\ ((exists status detail, outcome api_i2i w = inl (HTTPException status detail))
      /\ calls_after api_i2i w = calls w).
Proof.
  intros Hb t2i i2i api_i2i refused.
  assert (Hi : forall im,
             let m := image_to_image im (prompt request) height width steps
                        guidance seed in
             (outcome m w = inl refused
              \/ outcome m w
                 = inl (HTTPException 500
                          (refusal (ValueError (lit "Please upload at least one image")))))
             /\ calls_after m w = calls w).
  { intros im m. unfold m, outcome, calls_after.
    destruct (none_or_empty im) eqn:He.
    - rewrite image_to_image_no_image by assumption. split; [right|]; reflexivity.
    - rewrite image_to_image_blank by assumption. split; [left|]; reflexivity. }
  repeat split.
  - unfold t2i, outcome. rewrite text_to_image_blank by assumption. reflexivity.
  - unfold t2i, calls_after. rewrite text_to_image_blank by assumption. reflexivity.
  - apply Hi.
  - apply Hi.
  - unfold outcome. rewrite api_text_to_image_eq. simpl.
    unfold outcome. rewrite text_to_image_blank by assumption. reflexivity.
  - unfold calls_after. rewrite api_text_to_image_eq. simpl.
    rewrite text_to_image_blank by assumption. reflexivity.
  - unfold api_i2i, outcome. rewrite api_image_to_image_eq.
    destruct (decode_all files) as [e|l]; simpl.
    + apply reraised_structured.
    + destruct (Hi (Some l)) as [[H|H] _]; cbv zeta in H; rewrite H; simpl;
        apply reraised_structured.
  - unfold api_i2i, calls_after. rewrite api_image_to_image_eq.
    destruct (decode_all files) as [e|l]; simpl; [reflexivity|].
    apply (Hi (Some l)).
Qed.

(** C6. An image-to-image request whose image list is absent or empty is
    refused with an error response and the model is not invoked; so is a
    request to the endpoint with no uploaded file. *)
Theorem no_image_rejected (w : World) (imgs : option (list Image))
    (prompt : str) (height width steps : Z) (guidance : float) (seed : Z) :
  imgs = None \/ imgs = Some [] ->
  let i2i := image_to_image imgs prompt height width steps guidance seed in
  let api_i2i := api_image_to_image [] prompt height width steps guidance seed in
  let refused :=
    HTTPException 500 (refusal (ValueError (lit "Please upload at least one image"))) in
  (outcome i2i w = inl refused /\ calls_after i2i w = calls w)
  /\ (outcome api_i2i w = inl refused /\ calls_after api_i2i w = calls w).
Proof.
  intros He i2i api_i2i refused.
  assert (Hn : none_or_empty imgs = true) by (destruct He; subst; reflexivity).
  unfold i2i, api_i2i, outcome, calls_after.
  rewrite api_image_to_image_eq; simpl. unfold outcome.
  rewrite !image_to_image_no_image by (reflexivity || assumption).
  repeat split.
Qed.

(** C7. Whatever the request and the state, and whatever the libraries
    raise, an endpoint either returns its JSON response or raises an
    [HTTPException], which carries a status code and a detail message; no
    other exception leaves it. *)
Theorem endpoints_raise_only_HTTPException (w : World)
    (request : TextToImageRequest) (files : list UploadFile) (prompt : str)
    (height width steps : Z) (guidance : float) (seed : Z) :
  ((exists response, outcome (api_text_to_image request) w = inr response)
   \/ (exists status detail,
         outcome (api_text_to_image request) w = inl (HTTPException status detail)))
  /\ ((exists response,
         outcome (api_image_to_image files prompt height width steps guidance
                    seed) w = inr response)
      \/ (exists status detail,
            outcome (api_image_to_image files prompt height width steps
                       guidance seed) w = inl (HTTPException status detail))).
Proof.
  assert (Ha : forall r, (exists response, answer r = inr response)
                         \/ (exists status detail,
                               answer r = inl (HTTPException status detail))).
  { intros [e|image]; simpl.
    - right; apply reraised_structured.
    - destruct (Image_save image (lit "PNG")) as [e|png].
      + right; apply reraised_structured.
      + left; eauto. }
  split; unfold outcome at 1 2.
  - rewrite api_text_to_image_eq; simpl. apply Ha.
  - rewrite api_image_to_image_eq.
    destruct (decode_all files) as [e|imgs]; simpl; [|apply Ha].
    right; apply reraised_structured.
Qed.

Lemma answer_success (r : Result Image) (response : JSONResponse) :
  answer r = inr response ->
  exists image png,
    r = inr image /\ Image_save image (lit "PNG") = inr png
    /\ response = envelope (lit "data:image/png;base64,"
                            ++ decode (Base64.b64encode png)).
Proof.
  destruct r as [e|image]; [discriminate|].
  unfold answer.
  destruct (Image_save image (lit "PNG")) as [e|png] eqn:Hs; [discriminate|].
  intros H; inversion H; subst. exists image, png. repeat split; assumption.
Qed.

(** C8. The string [image_to_base64] returns for an image is the prefix
    [data:image/png;base64,] followed by the base64 encoding of the bytes
    the image is saved to in PNG format; and the [image] field of every
    success response of either endpoint is that string for the image the
    generation function returned. *)
Theorem encoded_image_is_png_data_uri (w : World)
    (request : TextToImageRequest) (files : list UploadFile) (text : str)
    (h wd n : Z) (gs : float) (sd : Z) :
  (forall image png, Image_save image (lit "PNG") = inr png ->
     outcome (image_to_base64 image) w
     = inr (lit "data:image/png;base64," ++ decode (Base64.b64encode png)))
  /\ (forall response,
        outcome (api_text_to_image request) w = inr response ->
        exists image png,
          outcome (text_to_image (prompt request) (height request)
                     (width request) (num_inference_steps request)
                     (guidance_scale request) (seed request)) w
          = inr image
          /\ Image_save image (lit "PNG") = inr png
          /\ content response
             = [ (lit "image",
                  lit "data:image/png;base64," ++ decode (Base64.b64encode png));
                 (lit "status", lit "success") ])
  /\ (forall response,
        outcome (api_image_to_image files text h wd n gs sd) w = inr response ->
        exists imgs image png,
          decode_all files = inr imgs
          /\ outcome (image_to_image (Some imgs) text h wd n gs sd) w = inr image
          /\ Image_save image (lit "PNG") = inr png
          /\ content response
             = [ (lit "image",
                  lit "data:image/png;base64," ++ decode (Base64.b64encode png));
                 (lit "status", lit "success") ]).
Proof.
  repeat split.
  - intros image png Hs.
    unfold outcome, image_to_base64, bind, lift, ret. rewrite Hs. reflexivity.
  - intros response. unfold outcome at 1. rewrite api_text_to_image_eq; simpl.
    intros H. apply answer_success in H as (image & png & Hr & Hs & ->).
    exists image, png. repeat split; assumption.
  - intros response. unfold outcome at 1. rewrite api_image_to_image_eq.
    destruct (decode_all files) as [e|imgs]; simpl; [discriminate|].
    intros H. apply answer_success in H as (image & png & Hr & Hs & ->).
    exists imgs, image, png. repeat split; assumption.
Qed.

(** C9. Whatever the image-to-image endpoint does, it adds no pipeline call
    or exactly one; the [image] argument of that call is a list with one
    image per uploaded file, and for every N the Nth image is the Nth
    file read, opened and converted to RGB. And when every file decodes
    and the request passes the other checks, the call is made. *)
Theorem upload_order_preserved (w : World) (files : list UploadFile)
    (prompt : str) (height width steps : Z) (guidance : float) (seed : Z) :
  let api := api_image_to_image files prompt height width steps guidance seed in
  (calls_after api w = calls w
   \/ exists args imgs,
        calls_after api w = calls w ++ [args]
        /\ kw_image args = Some imgs
        /\ List.length imgs = List.length files
        /\ forall n file, nth_error files n = Some file ->
             exists contents opened img,
               read file = inr contents
               /\ Image_open contents = inr opened
               /\ Image_convert opened (lit "RGB") = inr img
               /\ nth_error imgs n = Some img)
  /\ (forall imgs p g,
        decode_all files = inr imgs -> files <> [] ->
        blank prompt = false -> pipe w = Some p ->
        outcome (make_generator seed) w = inr g ->
        calls_after api w
        = calls w ++ [image_args imgs prompt height width steps guidance g]).
Proof.
  intros api. unfold api, calls_after. rewrite api_image_to_image_eq. split.
  - destruct (decode_all files) as [e|imgs] eqn:Hd; simpl; [left; reflexivity|].
    destruct (image_to_image_calls_cases imgs prompt height width steps guidance
                seed w) as [H|[g H]]; [left; exact H|].
    right. exists (image_args imgs prompt height width steps guidance g), imgs.
    destruct (decode_all_nth files Hd) as [Hlen Hnth].
    repeat split; try assumption.
    intros n file Hn. destruct (Hnth n file Hn) as (img & Hi & Hdec).
    unfold decoded in Hdec.
    destruct (read file) as [e|contents]; [discriminate|].
    destruct (Image_open contents) as [e|opened] eqn:Ho; [discriminate|].
    exists contents, opened, img. repeat split; assumption.
  - intros imgs p g Hd Hne Hb Hp Hg. rewrite Hd; simpl.
    apply (@image_to_image_calls L imgs prompt height width steps guidance seed
             w p g); try assumption.
    intros ->. destruct files as [|f fs]; [congruence|].
    simpl in Hd. destruct (decoded f); [discriminate|].
    destruct (decode_all fs); discriminate.
Qed.

(** C10. Validation comes before the readiness check. With the model not
    loaded ([pipe] is [None]), a blank prompt gets the prompt message from
    both generation functions, not the not-loaded one; and in
    [image_to_image] an absent or empty image list gets the image message
    whatever the prompt, a blank one included: the image check is the
    first. *)
Theorem validation_precedes_readiness (w : World) (prompt : str)
    (imgs : option (list Image)) (height width steps : Z) (guidance : float)
    (seed : Z) :
  pipe w = None ->
  (blank prompt = true ->
   outcome (text_to_image prompt height width steps guidance seed) w
   = inl (HTTPException 500 (refusal (ValueError (lit "Please enter a prompt")))))
  /\ (none_or_empty imgs = false -> blank prompt = true ->
      outcome (image_to_image imgs prompt height width steps guidance seed) w
      = inl (HTTPException 500 (refusal (ValueError (lit "Please enter a prompt")))))
  /\ (none_or_empty imgs = true ->
      outcome (image_to_image imgs prompt height width steps guidance seed) w
      = inl (HTTPException 500
               (refusal (ValueError (lit "Please upload at least one image"))))).
Proof.
  intros _. unfold outcome. repeat split.
  - intros Hb. rewrite text_to_image_blank by assumption. reflexivity.
  - intros He Hb. rewrite image_to_image_blank by assumption. reflexivity.
  - intros He. rewrite image_to_image_no_image by assumption. reflexivity.
Qed.

End Claims.

(* ------------------------------------------------------------------ *)
(** ** The properties on the sample libraries *)

(** C1 on a concrete request: [{"prompt": "a cat"}] (and an image-to-image
    form with one file) before [load_model] has run. *)
Lemma not_loaded_answers_500_witness :
  outcome (post_text_to_image (L := Sample.libs) (Sample.body "a cat"))
    Sample.starting
  = inl (HTTPException 500
           (lit "Error generating image: 503: Model is not loaded yet. Please wait for the model to finish loading."))
  /\ outcome (post_image_to_image (L := Sample.libs) (Sample.form ["x"%string] "a cat"))
       Sample.starting
     = inl (HTTPException 500
              (lit "Error generating image: 503: Model is not loaded yet. Please wait for the model to finish loading.")).
Proof.
  refine (@not_loaded_answers_500 Sample.libs Sample.starting
            (TextToImageRequest_of_body (Sample.body "a cat"))
            (List.map Sample.upload ["x"%string])
            [ {| Sample.mode := lit "RGB"; Sample.data := Sample.ascii "x" |} ]
            1056 1024 50 1.5%float 42 _ _ _ _);
    [reflexivity | reflexivity | reflexivity | discriminate].
Defined.

(** C2, the claim as stated fails: a request with height 0, width -32,
    -1 steps and guidance scale 0 is not rejected. The endpoint answers
    with the success envelope, and the pipeline was called with exactly
    these values. *)
Lemma nonpositive_values_reach_the_model :
  outcome (api_text_to_image (L := Sample.libs)
             {| prompt := lit "a cat"; height := 0; width := -32;
                num_inference_steps := -1; guidance_scale := 0; seed := 42 |})
    Sample.loaded
  = inr (envelope (lit "data:image/png;base64,TWFu"))
  /\ calls_after (api_text_to_image (L := Sample.libs)
                    {| prompt := lit "a cat"; height := 0; width := -32;
                       num_inference_steps := -1; guidance_scale := 0;
                       seed := 42 |})
       Sample.loaded
     = [ {| kw_prompt := lit "a cat"; kw_image := None; kw_height := 0;
            kw_width := -32; kw_num_inference_steps := -1;
            kw_guidance_scale := 0; kw_generator := Some (lit "cuda", 42%Z) |} ].
Proof.
  split; reflexivity.
Qed.

(** C2 as amended, on the same values, for both generation functions. *)
Lemma numeric_fields_pass_unchanged_witness :
  (exists args,
      calls_after (text_to_image (L := Sample.libs) (lit "a cat") 0 (-32) (-1) 0 42)
        Sample.loaded = [args]
      /\ kw_height args = 0%Z /\ kw_width args = (-32)%Z
      /\ kw_num_inference_steps args = (-1)%Z
      /\ kw_guidance_scale args = 0%float)
  /\ (exists args,
      calls_after (image_to_image (L := Sample.libs) (Some [Sample.painted])
                     (lit "a cat") 0 (-32) (-1) 0 42)
        Sample.loaded = [args]
      /\ kw_height args = 0%Z /\ kw_width args = (-32)%Z
      /\ kw_num_inference_steps args = (-1)%Z
      /\ kw_guidance_scale args = 0%float).
Proof.
  refine (@numeric_fields_pass_unchanged Sample.libs Sample.loaded
            Sample.pipeline
            (Some (lit "cuda", 42%Z)) (lit "a cat") [Sample.painted]
            0 (-32) (-1) 0%float 42 _ _ _ _);
    [reflexivity | reflexivity | reflexivity | discriminate].
Defined.

(** C3 on the loaded sample process: seed 42 gives the generator on
    [cuda] seeded with 42, seed -1 gives no generator. *)
Lemma generator_follows_seed_witness :
  calls_after (text_to_image (L := Sample.libs) (lit "a cat") 1024 1152 50 1.5 42)
    Sample.loaded
  = [ {| kw_prompt := lit "a cat"; kw_image := None; kw_height := 1024;
         kw_width := 1152; kw_num_inference_steps := 50;
         kw_guidance_scale := 1.5; kw_generator := Some (lit "cuda", 42%Z) |} ]
  /\ calls_after (image_to_image (L := Sample.libs) (Some [Sample.painted])
                    (lit "a cat") 1056 1024 50 1.5 (-1))
       Sample.loaded
     = [ {| kw_prompt := lit "a cat"; kw_image := Some [Sample.painted];
            kw_height := 1056; kw_width := 1024; kw_num_inference_steps := 50;
            kw_guidance_scale := 1.5; kw_generator := None |} ].
Proof.
  split.
  - refine (proj1 (proj1 (@generator_follows_seed Sample.libs Sample.starting
                            Sample.loaded Sample.pipeline (lit "a cat")
                            [Sample.painted] 1024 1152 50 1.5%float 42 _ _ _ _)
                     _ (lit "cuda", 0%Z) (lit "cuda", 42%Z) _ _));
      try reflexivity; try discriminate.
  - refine (proj2 (proj2 (@generator_follows_seed Sample.libs Sample.starting
                            Sample.loaded Sample.pipeline (lit "a cat")
                            [Sample.painted] 1056 1024 50 1.5%float (-1) _ _ _ _)
                     _));
      try reflexivity; try discriminate.
Defined.

(** C5 on a prompt of three spaces, with the model loaded. *)
Lemma blank_prompt_rejected_witness :
  outcome (post_text_to_image (L := Sample.libs) (Sample.body "   "))
    Sample.loaded
  = inl (HTTPException 500 (lit "Error generating image: Please enter a prompt"))
  /\ calls_after (post_text_to_image (L := Sample.libs) (Sample.body "   "))
       Sample.loaded = [].
Proof.
  refine (proj1 (proj2 (proj2
            (@blank_prompt_rejected Sample.libs Sample.loaded
               (TextToImageRequest_of_body (Sample.body "   "))
               (Some [Sample.painted]) (List.map Sample.upload ["x"%string])
               1056 1024 50 1.5%float 42 _))));
    reflexivity.
Defined.

(** C6 on an empty image list, with the model loaded. *)
Lemma no_image_rejected_witness :
  outcome (post_image_to_image (L := Sample.libs) (Sample.form [] "a cat"))
    Sample.loaded
  = inl (HTTPException 500
           (lit "Error generating image: Please upload at least one image"))
  /\ calls_after (post_image_to_image (L := Sample.libs) (Sample.form [] "a cat"))
       Sample.loaded = [].
Proof.
  refine (proj2 (@no_image_rejected Sample.libs Sample.loaded (Some [])
                   (lit "a cat") 1056 1024 50 1.5%float 42 _));
    right; reflexivity.
Defined.

(** C8 on the sample picture, whose PNG bytes are [Man]. *)
Lemma encoded_image_is_png_data_uri_witness :
  outcome (image_to_base64 (L := Sample.libs) Sample.painted) Sample.loaded
  = inr (lit "data:image/png;base64,TWFu").
Proof.
  refine (proj1 (@encoded_image_is_png_data_uri Sample.libs Sample.loaded
                   (TextToImageRequest_of_body (Sample.body "a cat")) []
                   (lit "a cat") 1056 1024 50 1.5%float 42)
            Sample.painted (Sample.ascii "Man") _);
    reflexivity.
Defined.

(** C9 on two uploaded files: the pipeline receives the two images in the
    order of the files. *)
Lemma upload_order_preserved_witness :
  calls_after (post_image_to_image (L := Sample.libs)
                 (Sample.form ["x"; "yy"]%string "a cat"))
    Sample.loaded
  = [ {| kw_prompt := lit "a cat";
         kw_image := Some [ {| Sample.mode := lit "RGB"; Sample.data := Sample.ascii "x" |};
                            {| Sample.mode := lit "RGB"; Sample.data := Sample.ascii "yy" |} ];
         kw_height := 1056; kw_width := 1024; kw_num_inference_steps := 50;
         kw_guidance_scale := 1.5; kw_generator := Some (lit "cuda", 42%Z) |} ].
Proof.
  refine (proj2 (@upload_order_preserved Sample.libs Sample.loaded
                   (List.map Sample.upload ["x"; "yy"]%string) (lit "a cat")
                   1056 1024 50 1.5%float 42)
            [ {| Sample.mode := lit "RGB"; Sample.data := Sample.ascii "x" |};
              {| Sample.mode := lit "RGB"; Sample.data := Sample.ascii "yy" |} ]
            Sample.pipeline (Some (lit "cuda", 42%Z)) _ _ _ _ _);
    try reflexivity; discriminate.
Defined.

(** C10 before [load_model] has run: a blank prompt gets the prompt
    message, and a blank prompt with no image gets the image message. *)
Lemma validation_precedes_readiness_witness :
  outcome (text_to_image (L := Sample.libs) (lit "   ") 1024 1152 50 1.5 42)
    Sample.starting
  = inl (HTTPException 500 (lit "Error generating image: Please enter a prompt"))
  /\ outcome (image_to_image (L := Sample.libs) (Some []) (lit "   ")
                1056 1024 50 1.5 42)
       Sample.starting
     = inl (HTTPException 500
              (lit "Error generating image: Please upload at least one image")).
Proof.
  split.
  - refine (proj1 (@validation_precedes_readiness Sample.libs Sample.starting
                     (lit "   ") (Some []) 1024 1152 50 1.5%float 42 _) _);
      reflexivity.
  - refine (proj2 (proj2 (@validation_precedes_readiness Sample.libs
                            Sample.starting (lit "   ") (Some [])
                            1056 1024 50 1.5%float 42 _)) _);
      reflexivity.
Defined.

(* ------------------------------------------------------------------ *)
(** ** Beyond the specification: how a generation function ends *)

Section Runs.

Context {L : Libs}.

(** [text_to_image] ends in one of the three ways of [Ran]. *)
Lemma text_to_image_ran prompt height width steps guidance seed w :
  Ran w (text_to_image prompt height width steps guidance seed w).
Proof.
  destruct (blank prompt) eqn:Hb.
  { rewrite text_to_image_blank by assumption. apply Refused. }
  destruct (pipe w) as [p|] eqn:Hp.
  2: { rewrite text_to_image_not_loaded by assumption. apply Refused. }
  destruct (outcome (make_generator seed) w) as [e|g] eqn:Hg.
  { rewrite (@text_to_image_no_generator L prompt height width steps guidance
               seed w p e) by assumption. apply Refused. }
  destruct w as [pp r out cs]; simpl in Hp; subst pp.
  unfold text_to_image, try_except, bind, ret, raise, get_pipe, print, call,
    generation_handler, index0; simpl.
  rewrite prompt_test_blank, Hb; simpl.
  rewrite make_generator_eq, Hg; simpl.
  set (args := {| kw_prompt := prompt; kw_image := None; kw_height := height;
                  kw_width := width; kw_num_inference_steps := steps;
                  kw_guidance_scale := guidance; kw_generator := g |}).
  set (w0 := {| pipe := Some p; rng := r; stdout := out; calls := cs |}).
  set (line := lit "Generating image with prompt: " ++ prompt).
  destruct (pipe_call p args r) as [[e|res] r']; simpl.
  - exact (Failed w0 e line args r').
  - destruct (images res) as [|image rest]; simpl.
    + exact (Failed w0 (IndexError (lit "list index out of range")) line args r').
    + exact (Returned w0 image line args r').
Qed.

(** [image_to_image] ends in one of the three ways of [Ran]. *)
Lemma image_to_image_ran imgs prompt height width steps guidance seed w :
  Ran w (image_to_image imgs prompt height width steps guidance seed w).
Proof.
  destruct (none_or_empty imgs) eqn:He.
  { rewrite image_to_image_no_image by assumption. apply Refused. }
  destruct (blank prompt) eqn:Hb.
  { rewrite image_to_image_blank by assumption. apply Refused. }
  destruct (pipe w) as [p|] eqn:Hp.
  2: { rewrite image_to_image_not_loaded by assumption. apply Refused. }
  destruct (outcome (make_generator seed) w) as [e|g] eqn:Hg.
  { rewrite (@image_to_image_no_generator L imgs prompt height width steps
               guidance seed w p e) by assumption. apply Refused. }
  destruct w as [pp r out cs]; simpl in Hp; subst pp.
  destruct imgs as [[|i0 l]|]; try discriminate.
  unfold image_to_image, try_except, bind, ret, raise, get_pipe, print, call,
    generation_handler, index0, len; simpl.
  rewrite prompt_test_blank, Hb; simpl.
  rewrite make_generator_eq, Hg; simpl.
  set (args := {| kw_prompt := prompt; kw_image := Some (i0 :: l);
                  kw_height := height; kw_width := width;
                  kw_num_inference_steps := steps;
                  kw_guidance_scale := guidance; kw_generator := g |}).
  set (w0 := {| pipe := Some p; rng := r; stdout := out; calls := cs |}).
  destruct (pipe_call p args r) as [[e|res] r']; simpl.
  - exact (Failed w0 e _ args r').
  - destruct (images res) as [|image rest]; simpl.
    + exact (Failed w0 (IndexError (lit "list index out of range")) _ args r').
    + exact (Returned w0 image _ args r').
Qed.

End Runs.

(* ------------------------------------------------------------------ *)
(** ** Beyond the specification: the generation functions *)

Section GenerationExtras.

Context {L : Libs}.



Lemma app_one_neq {A} (l : list A) (a : A) : l ++ [a] <> l.
Proof.
  intros H. apply (f_equal (@List.length A)) in H.
  rewrite length_app in H; simpl in H; lia.
Qed.

Lemma ran_refused (w : World) (res : Result Image * World) :
  Ran w res -> calls (snd res) = calls w ->
  exists cause,
    res = (inl (HTTPException 500 (refusal cause)),
           {| pipe := pipe w; rng := rng w;
              stdout := stdout w ++ [refusal cause]; calls := calls w |}).
Proof.
  intros [cause|cause line args r|image line args r]; simpl; intros H.
  - exists cause; reflexivity.
  - exfalso; eapply app_one_neq; exact H.
  - exfalso; eapply app_one_neq; exact H.
Qed.

(** X2. A generation function that does not call the pipeline changes
    nothing in the process but its output: it raises the status-500
    exception, prints its detail as one line, and leaves the global
    [pipe], the random source and the call history as they were. *)
Theorem refusal_changes_only_stdout (w : World)
    (imgs : option (list Image)) (prompt : str) (height width steps : Z)
    (guidance : float) (seed : Z) :
  let t2i := text_to_image prompt height width steps guidance seed in
  let i2i := image_to_image imgs prompt height width steps guidance seed in
  (calls_after t2i w = calls w ->
   exists cause,
     t2i w = (inl (HTTPException 500 (refusal cause)),
              {| pipe := pipe w; rng := rng w;
                 stdout := stdout w ++ [refusal cause]; calls := calls w |}))
  /\ (calls_after i2i w = calls w ->
      exists cause,
        i2i w = (inl (HTTPException 500 (refusal cause)),
                 {| pipe := pipe w; rng := rng w;
                    stdout := stdout w ++ [refusal cause]; calls := calls w |})).
Proof.
  intros t2i i2i. split; intros H.
  - exact (ran_refused (text_to_image_ran prompt height width steps guidance seed w) H).
  - exact (ran_refused (image_to_image_ran imgs prompt height width steps
                          guidance seed w) H).
Qed.

(** X3. When exactly the pipeline is called. [text_to_image] calls it if
    and only if the prompt is not blank, the global [pipe] is set and the
    generator (or [None]) could be built; [image_to_image] if and only if,
    besides, the image list is present and not empty. *)
Theorem pipeline_called_iff (w : World)
    (imgs : option (list Image)) (prompt : str) (height width steps : Z)
    (guidance : float) (seed : Z) :
  let t2i := text_to_image prompt height width steps guidance seed in
  let i2i := image_to_image imgs prompt height width steps guidance seed in
  (calls_after t2i w <> calls w
   <-> blank prompt = false /\ pipe w <> None
       /\ exists g, outcome (make_generator seed) w = inr g)
  /\ (calls_after i2i w <> calls w
      <-> none_or_empty imgs = false /\ blank prompt = false /\ pipe w <> None
          /\ exists g, outcome (make_generator seed) w = inr g).
Proof.
  intros t2i i2i. unfold t2i, i2i, calls_after. split; split.
  - intros H.
    destruct (blank prompt) eqn:Hb.
    { exfalso; apply H. rewrite text_to_image_blank by assumption. reflexivity. }
    destruct (pipe w) as [p|] eqn:Hp.
    2: { exfalso; apply H. rewrite text_to_image_not_loaded by assumption.
         reflexivity. }
    destruct (outcome (make_generator seed) w) as [e|g] eqn:Hg.
    { exfalso; apply H.
      rewrite (@text_to_image_no_generator L prompt height width steps guidance
                 seed w p e) by assumption. reflexivity. }
    repeat split; [discriminate | eauto].
  - intros (Hb & Hp & g & Hg).
    destruct (pipe w) as [p|] eqn:Hp'; [|congruence].
    destruct (@text_to_image_calls L prompt height width steps guidance seed w p
                g Hb Hp' Hg) as [Hc _].
    unfold calls_after in Hc. rewrite Hc. apply app_one_neq.
  - intros H.
    destruct (none_or_empty imgs) eqn:He.
    { exfalso; apply H. rewrite image_to_image_no_image by assumption.
      reflexivity. }
    destruct (blank prompt) eqn:Hb.
    { exfalso; apply H. rewrite image_to_image_blank by assumption. reflexivity. }
    destruct (pipe w) as [p|] eqn:Hp.
    2: { exfalso; apply H. rewrite image_to_image_not_loaded by assumption.
         reflexivity. }
    destruct (outcome (make_generator seed) w) as [e|g] eqn:Hg.
    { exfalso; apply H.
      rewrite (@image_to_image_no_generator L imgs prompt height width steps
                 guidance seed w p e) by assumption. reflexivity. }
    repeat split; [discriminate | eauto].
  - intros (He & Hb & Hp & g & Hg).
    destruct (pipe w) as [p|] eqn:Hp'; [|congruence].
    destruct imgs as [[|i0 l]|]; try discriminate.
    destruct (@image_to_image_calls L (i0 :: l) prompt height width steps
                guidance seed w p g ltac:(discriminate) Hb Hp' Hg) as [Hc _].
    unfold calls_after in Hc. rewrite Hc. apply app_one_neq.
Qed.

End GenerationExtras.

(* ------------------------------------------------------------------ *)
(** ** Beyond the specification: the endpoints and the service *)

Section ServiceExtras.

Context {L : Libs}.

(** What a generation function leaves of the state it started from. *)
Lemma ran_state (w : World) (res : Result Image * World) :
  Ran w res ->
  pipe (snd res) = pipe w
  /\ (exists lines, stdout (snd res) = stdout w ++ lines)
  /\ exists new,
       calls (snd res) = calls w ++ new /\ (List.length new <= 1)%nat
       /\ (forall image, fst res = inr image -> List.length new = 1%nat).
Proof.
  intros [cause|cause line args r|image line args r]; simpl.
  - split; [reflexivity|]. split; [eauto|].
    exists []. rewrite app_nil_r.
    split; [reflexivity|]. split; [simpl; lia | discriminate].
  - split; [reflexivity|]. split.
    + exists ([line] ++ [refusal cause]). rewrite app_assoc; reflexivity.
    + exists [args].
      split; [reflexivity|]. split; [simpl; lia | discriminate].
  - split; [reflexivity|]. split; [eauto|].
    exists [args].
    split; [reflexivity|]. split; [simpl; lia | reflexivity].
Qed.

Lemma answer_returned (r : Result Image) (response : JSONResponse) :
  answer r = inr response -> exists image, r = inr image.
Proof.
  destruct r as [e|image]; [discriminate | eauto].
Qed.

(** The state an endpoint leaves, for both endpoints at once. *)
Lemma endpoint_state (m : M JSONResponse) (w : World) :
  (exists request, m = api_text_to_image request)
  \/ (exists files prompt height width steps guidance seed,
        m = api_image_to_image files prompt height width steps guidance seed) ->
  pipe (snd (m w)) = pipe w
  /\ (exists lines, stdout (snd (m w)) = stdout w ++ lines)
  /\ exists new,
       calls (snd (m w)) = calls w ++ new /\ (List.length new <= 1)%nat
       /\ (forall response, fst (m w) = inr response -> List.length new = 1%nat).
Proof.
  intros [[request ->]|(files & prompt & height & width & steps & guidance
                        & seed & ->)].
  - rewrite api_text_to_image_eq; cbv zeta; simpl.
    destruct (ran_state (text_to_image_ran (prompt request)
                (height request) (width request)
                (num_inference_steps request) (guidance_scale request)
                (seed request) w))
      as (Hp & Hs & new & Hc & Hl & H1).
    repeat split; try assumption.
    exists new; repeat split; try assumption.
    intros response Hr. apply answer_returned in Hr as [image Hr].
    exact (H1 image Hr).
  - rewrite api_image_to_image_eq.
    destruct (decode_all files) as [e|imgs]; simpl.
    + split; [reflexivity|]. split; [exists []; rewrite app_nil_r; reflexivity|].
      exists []. rewrite app_nil_r.
      split; [reflexivity|]. split; [simpl; lia | discriminate].
    + destruct (ran_state (image_to_image_ran (Some imgs) prompt height width
                  steps guidance seed w))
        as (Hp & Hs & new & Hc & Hl & H1).
      repeat split; try assumption.
      exists new; repeat split; try assumption.
      intros response Hr. apply answer_returned in Hr as [image Hr].
      exact (H1 image Hr).
Qed.

(** X4. An endpoint calls the pipeline at most once per request, and a
    request answered with the success envelope has called it exactly
    once. *)
Theorem endpoint_calls_pipeline_at_most_once (w : World)
    (request : TextToImageRequest) (files : list UploadFile) (text : str)
    (h wd n : Z) (gs : float) (sd : Z) :
  let t2i := api_text_to_image request in
  let i2i := api_image_to_image files text h wd n gs sd in
  (exists new,
      calls_after t2i w = calls w ++ new /\ (List.length new <= 1)%nat
      /\ (forall response, outcome t2i w = inr response ->
            List.length new = 1%nat))
  /\ (exists new,
      calls_after i2i w = calls w ++ new /\ (List.length new <= 1)%nat
      /\ (forall response, outcome i2i w = inr response ->
            List.length new = 1%nat)).
Proof.
  intros t2i i2i. split.
  - apply (@endpoint_state t2i w). left. exists request. reflexivity.
  - apply (@endpoint_state i2i w). right.
    exists files, text, h, wd, n, gs, sd. reflexivity.
Qed.

Lemma reraised_cases (e : PyExc) (status : Z) (detail : str) :
  reraised e = HTTPException status detail ->
  status = 500%Z \/ e = HTTPException status detail.
Proof.
  unfold reraised. destruct e; simpl; intros H; inversion H; auto.
Qed.

Lemma decode_all_error (files : list UploadFile) (e : PyExc) :
  decode_all files = inl e ->
  exists file, In file files /\ decoded file = inl e.
Proof.
  induction files as [|f files IH]; simpl; [discriminate|].
  destruct (decoded f) as [e'|img] eqn:Hf.
  - intros H; inversion H; subst. exists f; auto.
  - destruct (decode_all files) as [e'|imgs]; [|discriminate].
    intros H; inversion H; subst.
    destruct (IH eq_refl) as (file & Hin & Hd). exists file; auto.
Qed.

Lemma answer_status (r : Result Image) (status : Z) (detail : str) :
  (forall e, r = inl e -> exists d, e = HTTPException 500 d) ->
  answer r = inl (HTTPException status detail) ->
  status = 500%Z
  \/ exists image, Image_save image (lit "PNG") = inl (HTTPException status detail).
Proof.
  intros Hr. destruct r as [e|image]; simpl.
  - destruct (Hr e eq_refl) as [d ->]. intros H; inversion H; auto.
  - destruct (Image_save image (lit "PNG")) as [e|png] eqn:Hs; [|discriminate].
    intros H; inversion H as [H'].
    destruct (reraised_cases _ H') as [->| ->]; [auto | right; eauto].
Qed.

(** X5. The status of an error answer. An endpoint raises status 500 and
    nothing else, 503 included, unless PIL itself raised an [HTTPException]
    with another status while a file was decoded or the image saved. *)
Theorem endpoint_error_status (w : World) (request : TextToImageRequest)
    (files : list UploadFile) (text : str) (h wd n : Z) (gs : float) (sd : Z)
    (status : Z) (detail : str) :
  (outcome (api_text_to_image request) w = inl (HTTPException status detail) ->
   status = 500%Z
   \/ exists image,
        Image_save image (lit "PNG") = inl (HTTPException status detail))
  /\ (outcome (api_image_to_image files text h wd n gs sd) w
      = inl (HTTPException status detail) ->
      status = 500%Z
      \/ (exists image,
            Image_save image (lit "PNG") = inl (HTTPException status detail))
      \/ exists file,
           In file files /\ decoded file = inl (HTTPException status detail)).
Proof.
  split; unfold outcome at 1.
  - rewrite api_text_to_image_eq; simpl. apply answer_status.
    intros e He. exact (text_to_image_raises _ _ _ _ _ _ _ He).
  - rewrite api_image_to_image_eq.
    destruct (decode_all files) as [e|imgs] eqn:Hd; simpl.
    + intros H; inversion H as [H'].
      destruct (reraised_cases _ H') as [->| ->]; [auto|].
      right; right. exact (decode_all_error _ Hd).
    + intros H. apply answer_status in H.
      * destruct H as [H|H]; auto.
      * intros e He. exact (image_to_image_raises _ _ _ _ _ _ _ _ He).
Qed.

Lemma route_state (request : Request) (w : World) :
  pipe (snd (route request w)) = pipe w
  /\ exists new,
       calls (snd (route request w)) = calls w ++ new
       /\ (List.length new <= 1)%nat.
Proof.
  destruct request as [body|form]; simpl.
  - destruct (@endpoint_state (post_text_to_image body) w)
      as (Hp & _ & new & Hc & Hl & _).
    { left. exists (TextToImageRequest_of_body body). reflexivity. }
    split; [exact Hp | exists new; auto].
  - destruct (@endpoint_state (post_image_to_image form) w)
      as (Hp & _ & new & Hc & Hl & _).
    { right. unfold post_image_to_image. eauto 10. }
    split; [exact Hp | exists new; auto].
Qed.

Lemma serve_pipe (requests : list Request) (w : World) :
  pipe (snd (serve requests w)) = pipe w.
Proof.
  revert w; induction requests as [|request requests IH]; intros w; simpl;
    [reflexivity|].
  destruct (route_state request w) as [Hp _].
  destruct (route request w) as [answered w1]; simpl in *.
  specialize (IH w1).
  destruct (serve requests w1) as [answers w2]; simpl in *. congruence.
Qed.

(** X6. Serving requests never touches the global [pipe]: after any
    sequence of requests it is what it was before the first one. Every
    request is answered, and the pipeline has been called at most once per
    request. *)
Theorem serving_keeps_the_pipeline (requests : list Request) (w : World) :
  pipe (snd (serve requests w)) = pipe w
  /\ List.length (fst (serve requests w)) = List.length requests
  /\ exists new,
       calls (snd (serve requests w)) = calls w ++ new
       /\ (List.length new <= List.length requests)%nat.
Proof.
  split; [apply serve_pipe|].
  revert w; induction requests as [|request requests IH]; intros w; simpl.
  - split; [reflexivity|].
    exists []. rewrite app_nil_r. split; [reflexivity | simpl; lia].
  - destruct (route_state request w) as (_ & new1 & Hc1 & Hl1).
    destruct (route request w) as [answered w1]; simpl in *.
    destruct (IH w1) as (Hlen & new2 & Hc2 & Hl2).
    destruct (serve requests w1) as [answers w2]; simpl in *.
    split; [congruence|].
    exists (new1 ++ new2). rewrite Hc2, Hc1, app_assoc, length_app.
    split; [reflexivity | lia].
Qed.

(** X7. Startup decides the pipeline once and for all. If [lifespan]'s
    startup succeeds, [from_pretrained] returned a pipeline for the model
    [zai-org/GLM-Image] on [cuda], and after any sequence of requests the
    global [pipe] is still that pipeline. If [from_pretrained] raises, the
    startup raises the same exception, not converted, and the global
    [pipe] stays what it was whatever is served afterwards. *)
Theorem startup_decides_the_pipeline (w0 : World) (requests : list Request) :
  let started := snd (lifespan_startup w0) in
  (outcome lifespan_startup w0 = inr tt ->
   exists f,
     from_pretrained (lit "zai-org/GLM-Image") (lit "cuda") = inr f
     /\ pipe (snd (serve requests started))
        = Some {| pipe_device_map := lit "cuda"; pipe_call := f |})
  /\ (forall e,
        from_pretrained (lit "zai-org/GLM-Image") (lit "cuda") = inl e ->
        outcome lifespan_startup w0 = inl e
        /\ pipe (snd (serve requests started)) = pipe w0).
Proof.
  intros started.
  pose proof (serve_pipe requests started) as Hs.
  rewrite Hs. unfold started, outcome, lifespan_startup, load_model, bind,
    print, lift, set_pipe, ret; simpl.
  destruct (from_pretrained (lit "zai-org/GLM-Image") (lit "cuda")) as [e|f];
    simpl; split.
  - discriminate.
  - intros e' H; inversion H; subst. split; reflexivity.
  - intros _. exists f. split; reflexivity.
  - intros e H; discriminate.
Qed.

End ServiceExtras.

(* ------------------------------------------------------------------ *)
(** ** Beyond the specification: failures after validation *)

Section FailureExtras.

Context {L : Libs}.

Lemma decode_all_first_failure (good rest : list UploadFile) (bad : UploadFile)
    (imgs : list Image) (e : PyExc) :
  decode_all good = inr imgs -> decoded bad = inl e ->
  decode_all (good ++ bad :: rest) = inl e.
Proof.
  revert imgs; induction good as [|f good IH]; intros imgs; simpl.
  - intros _ Hb. rewrite Hb. reflexivity.
  - destruct (decoded f) as [e'|img]; [discriminate|].
    destruct (decode_all good) as [e'|imgs'] eqn:Hg; [discriminate|].
    intros _ Hb. rewrite (IH imgs' eq_refl Hb). reflexivity.
Qed.

(** X8. One bad upload fails the whole image-to-image request. When the
    files before it decode and one file does not, the endpoint raises for
    that file's exception ([HTTPException] with status 500 and [str] of the
    exception as detail, or the exception itself if it is an
    [HTTPException]) whatever the files after it, the prompt and the state
    of the model are; the process state is untouched: nothing is printed
    and the pipeline is not called. *)
Theorem bad_upload_fails_whole_request (w : World)
    (good rest : list UploadFile) (bad : UploadFile) (imgs : list Image)
    (e : PyExc) (text : str) (h wd n : Z) (gs : float) (sd : Z) :
  decode_all good = inr imgs -> decoded bad = inl e ->
  api_image_to_image (good ++ bad :: rest) text h wd n gs sd w
  = (inl (if is_HTTPException e then e else HTTPException 500 (str_exc e)), w).
Proof.
  intros Hg Hb. rewrite api_image_to_image_eq.
  rewrite (decode_all_first_failure good rest bad Hg Hb). reflexivity.
Qed.

(** X9. A failure of the pipeline reaches the client as status 500 with
    the prefixed message. With a request that passes validation, the model
    loaded and the generator built: if the pipeline raises [e], the
    text-to-image endpoint raises [HTTPException] 500 with detail
    [Error generating image: ] followed by [str(e)]; if the pipeline
    returns an output with no image, the detail is that of the
    [IndexError] of [result.images[0]]. In both cases the call is in the
    history. *)
Theorem pipeline_failure_is_reported (w : World) (p : Pipeline)
    (g : option Generator) (request : TextToImageRequest) :
  blank (prompt request) = false -> pipe w = Some p ->
  outcome (make_generator (seed request)) w = inr g ->
  let args := text_args (prompt request) (height request) (width request)
                (num_inference_steps request) (guidance_scale request) g in
  calls_after (api_text_to_image request) w = calls w ++ [args]
  /\ (forall e, fst (pipe_call p args (rng w)) = inl e ->
        outcome (api_text_to_image request) w
        = inl (HTTPException 500 (lit "Error generating image: " ++ str_exc e)))
  /\ (forall out, fst (pipe_call p args (rng w)) = inr out -> images out = [] ->
        outcome (api_text_to_image request) w
        = inl (HTTPException 500
                 (lit "Error generating image: list index out of range"))).
Proof.
  intros Hb Hp Hg args.
  destruct (@text_to_image_calls L (prompt request) (height request)
              (width request) (num_inference_steps request)
              (guidance_scale request) (seed request) w p g Hb Hp Hg)
    as [Hc Ho].
  fold args in Hc, Ho.
  unfold calls_after, outcome in *. rewrite api_text_to_image_eq; simpl.
  split; [exact Hc|]. unfold outcome. rewrite Ho. split.
  - intros e He. rewrite He. reflexivity.
  - intros out He Hi. rewrite He. simpl. rewrite Hi. reflexivity.
Qed.

(** [text_to_image] when everything goes well: the image, and the state
    after the announcement and the call. *)
Lemma text_to_image_returns prompt height width steps guidance seed w p g
    out r image rest :
  blank prompt = false -> pipe w = Some p ->
  outcome (make_generator seed) w = inr g ->
  let args := text_args prompt height width steps guidance g in
  pipe_call p args (rng w) = (inr out, r) -> images out = image :: rest ->
  text_to_image prompt height width steps guidance seed w
  = (inr image,
     called w (lit "Generating image with prompt: " ++ prompt) args r).
Proof.
  intros Hb Hp Hg args Hc Hi.
  destruct w as [pp r0 so cs]; simpl in Hp, Hc; subst pp.
  unfold text_to_image, try_except, bind, ret, raise, get_pipe, print, call,
    generation_handler, index0; simpl.
  rewrite prompt_test_blank, Hb; simpl.
  rewrite make_generator_eq, Hg; simpl.
  fold (text_args prompt height width steps guidance g). fold args.
  rewrite Hc; simpl. rewrite Hi. reflexivity.
Qed.

(** X10. A failure to save the image comes after the generation. When
    the pipeline has returned an image and PIL cannot write it as PNG, the
    text-to-image endpoint raises status 500 with [str] of PIL's exception
    as detail, without the [Error generating image: ] prefix and without
    printing it; the pipeline has been called and the random source is
    where the call left it. *)
Theorem save_failure_comes_after_generation (w : World) (p : Pipeline)
    (g : option Generator) (request : TextToImageRequest)
    (out : PipeOutput Image) (r : N) (image : Image) (rest : list Image)
    (e : PyExc) :
  blank (prompt request) = false -> pipe w = Some p ->
  outcome (make_generator (seed request)) w = inr g ->
  let args := text_args (prompt request) (height request) (width request)
                (num_inference_steps request) (guidance_scale request) g in
  pipe_call p args (rng w) = (inr out, r) -> images out = image :: rest ->
  Image_save image (lit "PNG") = inl e -> is_HTTPException e = false ->
  api_text_to_image request w
  = (inl (HTTPException 500 (str_exc e)),
     {| pipe := pipe w; rng := r;
        stdout := stdout w
                  ++ [lit "Generating image with prompt: " ++ prompt request];
        calls := calls w ++ [args] |}).
Proof.
  intros Hb Hp Hg args Hc Hi Hs He.
  rewrite api_text_to_image_eq; cbv zeta. unfold outcome.
  rewrite (@text_to_image_returns (prompt request) (height request)
             (width request) (num_inference_steps request)
             (guidance_scale request) (seed request) w p g out r image rest
             Hb Hp Hg Hc Hi).
  cbn [fst snd]. unfold answer. rewrite Hs. unfold reraised. rewrite He.
  reflexivity.
Qed.

(** X11. When the text-to-image endpoint succeeds. It returns a response
    if and only if the prompt is not blank, the model is loaded, the
    generator (or [None]) is built, the pipeline returns an output with at
    least one image, and the first image can be saved as PNG. *)
Theorem text_endpoint_succeeds_iff (w : World) (request : TextToImageRequest) :
  (exists response, outcome (api_text_to_image request) w = inr response)
  <-> blank (prompt request) = false
      /\ exists p g out image rest png,
           pipe w = Some p
           /\ outcome (make_generator (seed request)) w = inr g
           /\ fst (pipe_call p
                     (text_args (prompt request) (height request)
                        (width request) (num_inference_steps request)
                        (guidance_scale request) g) (rng w)) = inr out
           /\ images out = image :: rest
           /\ Image_save image (lit "PNG") = inr png.
Proof.
  unfold outcome at 1. rewrite api_text_to_image_eq; simpl. split.
  - intros [response H].
    apply answer_success in H as (image & png & Hr & Hs & _).
    unfold outcome in Hr.
    destruct (blank (prompt request)) eqn:Hb.
    { rewrite text_to_image_blank in Hr by assumption. discriminate. }
    split; [reflexivity|].
    destruct (pipe w) as [p|] eqn:Hp.
    2: { rewrite text_to_image_not_loaded in Hr by assumption. discriminate. }
    destruct (outcome (make_generator (seed request)) w) as [e|g] eqn:Hg.
    { rewrite (@text_to_image_no_generator L (prompt request) (height request)
                 (width request) (num_inference_steps request)
                 (guidance_scale request) (seed request) w p e) in Hr
        by assumption. discriminate. }
    destruct (@text_to_image_calls L (prompt request) (height request)
                (width request) (num_inference_steps request)
                (guidance_scale request) (seed request) w p g Hb Hp Hg)
      as [_ Ho].
    unfold outcome in Ho. rewrite Ho in Hr. unfold first_image in Hr.
    match type of Hr with
    | context [fst ?c] => destruct (fst c) as [e|out] eqn:Hc
    end; [discriminate|].
    destruct (images out) as [|image' rest] eqn:Hi; [discriminate|].
    inversion Hr; subst image'.
    exists p, g, out, image, rest, png. repeat split; assumption.
  - intros (Hb & p & g & out & image & rest & png & Hp & Hg & Hc & Hi & Hs).
    destruct (@text_to_image_calls L (prompt request) (height request)
                (width request) (num_inference_steps request)
                (guidance_scale request) (seed request) w p g Hb Hp Hg)
      as [_ Ho].
    rewrite Ho, Hc. unfold first_image, answer. rewrite Hi, Hs. eauto.
Qed.

(** X14. When the image-to-image endpoint succeeds. It returns a response
    if and only if every uploaded file decodes, there is at least one, the
    prompt is not blank, the model is loaded, the generator (or [None]) is
    built, the pipeline, called with the decoded images in upload order,
    returns an output with at least one image, and the first image can be
    saved as PNG. *)
Theorem image_endpoint_succeeds_iff (w : World) (files : list UploadFile)
    (text : str) (h wd n : Z) (gs : float) (sd : Z) :
  (exists response,
      outcome (api_image_to_image files text h wd n gs sd) w = inr response)
  <-> files <> [] /\ blank text = false
      /\ exists imgs p g out image rest png,
           decode_all files = inr imgs
           /\ pipe w = Some p
           /\ outcome (make_generator sd) w = inr g
           /\ fst (pipe_call p (image_args imgs text h wd n gs g) (rng w))
              = inr out
           /\ images out = image :: rest
           /\ Image_save image (lit "PNG") = inr png.
Proof.
  unfold outcome at 1. rewrite api_image_to_image_eq. split.
  - intros [response H].
    destruct (decode_all files) as [e|imgs] eqn:Hd; [discriminate|].
    simpl in H.
    apply answer_success in H as (image & png & Hr & Hs & _).
    unfold outcome in Hr.
    destruct imgs as [|i0 imgs].
    { rewrite image_to_image_no_image in Hr by reflexivity. discriminate. }
    assert (Hf : files <> []) by (intros ->; discriminate).
    split; [exact Hf|].
    destruct (blank text) eqn:Hb.
    { rewrite image_to_image_blank in Hr by (reflexivity || assumption).
      discriminate. }
    split; [reflexivity|].
    destruct (pipe w) as [p|] eqn:Hp.
    2: { rewrite image_to_image_not_loaded in Hr by (reflexivity || assumption).
         discriminate. }
    destruct (outcome (make_generator sd) w) as [e|g] eqn:Hg.
    { rewrite (@image_to_image_no_generator L (Some (i0 :: imgs)) text h wd n gs
                 sd w p e) in Hr by (reflexivity || assumption).
      discriminate. }
    destruct (@image_to_image_calls L (i0 :: imgs) text h wd n gs sd w p g
                ltac:(discriminate) Hb Hp Hg) as [_ Ho].
    unfold outcome in Ho. rewrite Ho in Hr. unfold first_image in Hr.
    match type of Hr with
    | context [fst ?c] => destruct (fst c) as [e|out] eqn:Hc
    end; [discriminate|].
    destruct (images out) as [|image' rest] eqn:Hi; [discriminate|].
    inversion Hr; subst image'.
    exists (i0 :: imgs), p, g, out, image, rest, png.
    repeat split; assumption.
  - intros (Hf & Hb & imgs & p & g & out & image & rest & png
            & Hd & Hp & Hg & Hc & Hi & Hs).
    rewrite Hd; simpl.
    assert (Hne : imgs <> []).
    { intros ->. destruct files as [|f fs]; [congruence|].
      simpl in Hd. destruct (decoded f); [discriminate|].
      destruct (decode_all fs); discriminate. }
    destruct (@image_to_image_calls L imgs text h wd n gs sd w p g Hne Hb Hp Hg)
      as [_ Ho].
    rewrite Ho, Hc. unfold first_image, answer. rewrite Hi, Hs. eauto.
Qed.

End FailureExtras.

(* ------------------------------------------------------------------ *)
(** ** Beyond the specification: the data URI *)

Section DataURIExtras.

Context {L : Libs}.

Lemma encode_decode (b : bytes) : encode (decode b) = Some b.
Proof.
  induction b as [|x b IH]; [reflexivity|].
  unfold decode in *. cbn [List.map encode].
  rewrite Byte.of_to_N, IH. reflexivity.
Qed.

Lemma image_to_base64_eq (image : Image) (png : bytes) (w : World) :
  Image_save image (lit "PNG") = inr png ->
  outcome (image_to_base64 image) w
  = inr (data_uri_prefix ++ decode (Base64.b64encode png)).
Proof.
  intros Hs. unfold outcome, image_to_base64, bind, lift, ret.
  rewrite Hs. reflexivity.
Qed.

(** X12. The data URI loses nothing. From the string [image_to_base64]
    returns, dropping the 22 characters of the prefix and decoding the rest
    as base64 gives back exactly the PNG bytes PIL wrote; so two images
    with the same data URI have the same PNG bytes. *)
Theorem data_uri_recovers_png (w : World) (image image' : Image)
    (png png' : bytes) :
  Image_save image (lit "PNG") = inr png ->
  Image_save image' (lit "PNG") = inr png' ->
  (exists s,
      outcome (image_to_base64 image) w = inr s
      /\ firstn 22 s = lit "data:image/png;base64,"
      /\ match encode (skipn 22 s) with
         | Some payload => Base64.b64decode payload
         | None => None
         end = Some png)
  /\ (outcome (image_to_base64 image) w = outcome (image_to_base64 image') w ->
      png = png').
Proof.
  intros Hs Hs'.
  assert (Hrec : forall b,
             match encode (skipn 22 (data_uri_prefix
                                     ++ decode (Base64.b64encode b))) with
             | Some payload => Base64.b64decode payload
             | None => None
             end = Some b).
  { intros b.
    change (skipn 22 (data_uri_prefix ++ decode (Base64.b64encode b)))
      with (decode (Base64.b64encode b)).
    rewrite encode_decode. apply b64decode_b64encode. }
  split.
  - exists (data_uri_prefix ++ decode (Base64.b64encode png)).
    split; [exact (image_to_base64_eq image w Hs)|].
    split; [reflexivity | apply Hrec].
  - rewrite (image_to_base64_eq image w Hs), (image_to_base64_eq image' w Hs').
    intros H. inversion H as [H'].
    pose proof (Hrec png) as H1. rewrite H' in H1. rewrite (Hrec png') in H1.
    inversion H1; reflexivity.
Qed.

(** X13. The data URI is plain ASCII of a known length: every character
    of the string [image_to_base64] returns is below 128, and for [n] PNG
    bytes the string has 22 characters of prefix and four characters for
    every three bytes, the last group padded. *)
Theorem data_uri_is_ascii (w : World) (image : Image) (png : bytes) :
  Image_save image (lit "PNG") = inr png ->
  exists s,
    outcome (image_to_base64 image) w = inr s
    /\ Forall (fun c => (c < 128)%N) s
    /\ List.length s = (22 + 4 * ((List.length png + 2) / 3))%nat.
Proof.
  intros Hs. exists (data_uri_prefix ++ decode (Base64.b64encode png)).
  split; [exact (image_to_base64_eq image w Hs)|]. split.
  - apply Forall_app. split.
    + unfold data_uri_prefix, lit; simpl.
      repeat (apply Forall_cons; [reflexivity|]). apply Forall_nil.
    + unfold decode. apply Forall_map. exact (b64encode_ascii png).
  - rewrite length_app. unfold decode. rewrite length_map, b64encode_length.
    reflexivity.
Qed.

End DataURIExtras.

(* ------------------------------------------------------------------ *)
(** ** The further properties on the sample libraries *)


(** X2 before the model is loaded. *)
Lemma refusal_changes_only_stdout_witness :
  exists cause,
    text_to_image (L := Sample.libs) (lit "a cat") 1024 1152 50 1.5 42
      Sample.starting
    = (inl (HTTPException 500 (refusal (L := Sample.libs) cause)),
       {| pipe := None; rng := 0;
          stdout := [refusal (L := Sample.libs) cause]; calls := [] |}).
Proof.
  refine (proj1 (@refusal_changes_only_stdout Sample.libs Sample.starting
                   None (lit "a cat") 1024 1152 50 1.5%float 42) _).
  reflexivity.
Defined.

(** X5 before the model is loaded: the status is 500. *)
Lemma endpoint_error_status_witness :
  500%Z = 500%Z
  \/ exists image,
       Image_save (Libs := Sample.libs) image (lit "PNG")
       = inl (HTTPException 500
                (lit "Error generating image: 503: Model is not loaded yet. Please wait for the model to finish loading.")).
Proof.
  refine (proj1 (@endpoint_error_status Sample.libs Sample.starting
                   (TextToImageRequest_of_body (Sample.body "a cat"))
                   [] (lit "a cat") 1056 1024 50 1.5%float 42 500 _) _).
  reflexivity.
Defined.

(** X7 on the sample libraries: after startup and two requests, one of
    them refused, the pipeline is the one that was loaded. *)
Lemma startup_decides_the_pipeline_witness :
  exists f,
    from_pretrained (Libs := Sample.libs) (lit "zai-org/GLM-Image") (lit "cuda")
    = inr f
    /\ pipe (snd (serve (L := Sample.libs)
                    [TextToImage (Sample.body "a cat");
                     ImageToImage (Sample.form [] "a cat")]
                    (snd (lifespan_startup Sample.starting))))
       = Some {| pipe_device_map := lit "cuda"; pipe_call := f |}.
Proof.
  refine (proj1 (@startup_decides_the_pipeline Sample.libs Sample.starting
                   [TextToImage (Sample.body "a cat");
                    ImageToImage (Sample.form [] "a cat")]) _).
  reflexivity.
Defined.

(** X8 on three uploads, the second one empty. *)
Lemma bad_upload_fails_whole_request_witness :
  api_image_to_image (L := Sample.libs)
    (List.map Sample.upload ["x"; EmptyString; "y"]%string)
    (lit "a cat") 1056 1024 50 1.5 42 Sample.loaded
  = (inl (HTTPException 500 (lit "cannot identify image file")), Sample.loaded).
Proof.
  refine (@bad_upload_fails_whole_request Sample.libs Sample.loaded
            [Sample.upload "x"] [Sample.upload "y"] (Sample.upload EmptyString)
            [ {| Sample.mode := lit "RGB"; Sample.data := Sample.ascii "x" |} ]
            Sample.unidentified (lit "a cat") 1056 1024 50 1.5%float 42 _ _);
    reflexivity.
Defined.

(** X9 with a pipeline that runs out of memory. *)
Lemma pipeline_failure_is_reported_witness :
  outcome (post_text_to_image (L := Sample.libs) (Sample.body "a cat"))
    Sample.exhausted
  = inl (HTTPException 500 (lit "Error generating image: CUDA out of memory.")).
Proof.
  refine (proj1 (proj2 (@pipeline_failure_is_reported Sample.libs
                          Sample.exhausted
                          (@Build_Pipeline Sample.libs (lit "cuda")
                             (fun _ r => (inl Sample.out_of_memory, r)))
                          (Some (lit "cuda", 42%Z))
                          (TextToImageRequest_of_body (Sample.body "a cat"))
                          _ _ _))
            Sample.out_of_memory _);
    reflexivity.
Defined.

(** X10 with a PIL that cannot write PNG files. *)
Lemma save_failure_comes_after_generation_witness :
  post_text_to_image (L := Sample.libs_without_png) (Sample.body "a cat")
    Sample.loaded_without_png
  = (inl (HTTPException 500 (lit "encoder zip not available")),
     {| pipe := pipe Sample.loaded_without_png; rng := 1;
        stdout := stdout Sample.loaded_without_png
                  ++ [lit "Generating image with prompt: a cat"];
        calls := [ {| kw_prompt := lit "a cat"; kw_image := None;
                      kw_height := 1024; kw_width := 1152;
                      kw_num_inference_steps := 50; kw_guidance_scale := 1.5;
                      kw_generator := Some (lit "cuda", 42%Z) |} ] |}).
Proof.
  refine (@save_failure_comes_after_generation Sample.libs_without_png
            Sample.loaded_without_png
            (@Build_Pipeline Sample.libs_without_png (lit "cuda") Sample.paint)
            (Some (lit "cuda", 42%Z))
            (TextToImageRequest_of_body (Sample.body "a cat"))
            {| images := [Sample.painted] |} 1%N Sample.painted []
            Sample.cannot_write _ _ _ _ _ _ _);
    reflexivity.
Defined.

(** X12 on the sample picture. *)
Lemma data_uri_recovers_png_witness :
  exists s,
    outcome (image_to_base64 (L := Sample.libs) Sample.painted) Sample.loaded
    = inr s
    /\ firstn 22 s = lit "data:image/png;base64,"
    /\ match encode (skipn 22 s) with
       | Some payload => Base64.b64decode payload
       | None => None
       end = Some (Sample.ascii "Man").
Proof.
  refine (proj1 (@data_uri_recovers_png Sample.libs Sample.loaded
                   Sample.painted Sample.painted (Sample.ascii "Man")
                   (Sample.ascii "Man") _ _));
    reflexivity.
Defined.

(** X13 on the sample picture: 22 + 4 characters. *)
Lemma data_uri_is_ascii_witness :
  exists s,
    outcome (image_to_base64 (L := Sample.libs) Sample.painted) Sample.loaded
    = inr s
    /\ Forall (fun c => (c < 128)%N) s
    /\ List.length s = 26%nat.
Proof.
  refine (@data_uri_is_ascii Sample.libs Sample.loaded Sample.painted
            (Sample.ascii "Man") _);
    reflexivity.
Defined.
